(** * DiscoveryService (packages/discovery/src/discovery.service.ts)

    A shallow embedding of the discovery index of a Nest application and of
    its eight query operations, with the properties of the specification
    proved about it.

    The service holds two arrays, built once by its constructor, and its
    methods read them.  The methods call three collaborators that live
    outside the file: the annotation store ([Reflect.getMetadata]), the
    prototype scanner ([MetadataScanner.scanFromPrototype]) and the
    JavaScript object model ([Object.getPrototypeOf], property reads).  Each
    of these may throw, and so may a filter given by the caller, hence the
    methods are written in a monad that threads the service object and
    propagates exceptions. *)

From Stdlib Require Import ZArith.
From stdpp Require Import base list strings.

Set Default Proof Using "Type".

(** ** JavaScript values *)

(** Object identity.  Two objects are the same reference when their
    addresses are equal. *)
Definition Ref := nat.

(** The values a metadata entry, an instance or a class type can be.
    Numbers are the integers and [NaN]; objects, functions and classes are
    references.  Structural equality on this type is the [SameValueZero]
    comparison that lodash uses. *)
Inductive JsValue : Type :=
  | JUndefined
  | JNull
  | JBool (b : bool)
  | JNum (z : Z)
  | JNaN
  | JStr (s : string)
  | JSym (r : Ref)
  | JObj (r : Ref).

#[global] Instance JsValue_eq_dec : EqDecision JsValue.
Proof. solve_decision. Defined.

(** The truthiness test that [Array.prototype.filter] and [!!] apply. *)
Definition ToBoolean (v : JsValue) : bool :=
  match v with
  | JUndefined | JNull | JNaN => false
  | JBool b => b
  | JNum z => negb (Z.eqb z 0)
  | JStr s => match s with EmptyString => false | String _ _ => true end
  | JSym _ | JObj _ => true
  end.

(** A class type or handler that "could not be resolved". *)
Definition absent (v : JsValue) : bool :=
  match v with
  | JUndefined | JNull => true
  | _ => false
  end.

(** ** Exceptions *)

Inductive JsError : Type :=
  | TypeError
  | Thrown (v : JsValue).

Inductive Res (A : Type) : Type :=
  | Ok (a : A)
  | Throw (e : JsError).
Arguments Ok {A} a.
Arguments Throw {A} e.

Definition isOk {A} (r : Res A) : bool :=
  match r with
  | Ok _ => true
  | Throw _ => false
  end.

(** The value of a call that returned, [d] where it threw. *)
Definition valueOr {A} (d : A) (r : Res A) : A :=
  match r with
  | Ok a => a
  | Throw _ => d
  end.

(** ** The data model (discovery.interfaces, as the service builds it) *)

(** [MetaKey = string | number | Symbol] *)
Inductive MetaKey : Type :=
  | KString (s : string)
  | KNumber (z : Z)
  | KSymbol (r : Ref).

#[global] Instance MetaKey_eq_dec : EqDecision MetaKey.
Proof. solve_decision. Defined.

(** A filter is a callback; [Array.prototype.filter] keeps an element when
    the value it returns is truthy, and a callback may throw. *)
Definition Filter (A : Type) : Type := A -> Res JsValue.

Module DiscoveredModule.
Record t : Type := mk {
  name : string;
  instance : JsValue;
  classType : JsValue
}.
End DiscoveredModule.

Module DiscoveredClass.
Record t : Type := mk {
  name : string;
  instance : JsValue;
  classType : JsValue;
  parentModule : DiscoveredModule.t
}.
End DiscoveredClass.

Module DiscoveredMethod.
Record t : Type := mk {
  handler : JsValue;
  methodName : string;
  parentClass : DiscoveredClass.t
}.
End DiscoveredMethod.

Module DiscoveredClassWithMeta.
Record t : Type := mk {
  meta : JsValue;
  discoveredClass : DiscoveredClass.t
}.
End DiscoveredClassWithMeta.

Module DiscoveredMethodWithMeta.
Record t : Type := mk {
  meta : JsValue;
  discoveredMethod : DiscoveredMethod.t
}.
End DiscoveredMethodWithMeta.

(** ** The container, as the constructor reads it *)

(** A class object: its identity and its [name] property. *)
Record Constructor : Type := {
  ctorRef : Ref;
  ctorName : string
}.

(** A JavaScript [Map], as the list of its entries in iteration order. *)
Definition JsMap (V : Type) : Type := list (string * V).

Definition values {V} (m : JsMap V) : list V := m.*2.
Definition entries {V} (m : JsMap V) : list (string * V) := m.

Module InstanceWrapper.
Record t : Type := mk {
  name : string;
  instance : JsValue;
  metatype : JsValue
}.
End InstanceWrapper.

Module NestModule.
Record t : Type := mk {
  metatype : Constructor;
  instance : JsValue;
  routes : JsMap InstanceWrapper.t;
  components : JsMap InstanceWrapper.t
}.
End NestModule.

Definition ModulesContainer : Type := JsMap NestModule.t.

(** ** The collaborators *)

(** What the service calls and does not define. *)
Record Env : Type := {
  (** [Reflect.getMetadata(key, target)] *)
  getMetadata : MetaKey -> JsValue -> Res JsValue;
  (** [Object.getPrototypeOf(instance)] *)
  getPrototypeOf : JsValue -> Res JsValue;
  (** the method names [MetadataScanner.scanFromPrototype(instance,
      prototype, _)] visits, in scan order *)
  methodNames : JsValue -> JsValue -> Res (list string);
  (** [prototype[methodName]] *)
  getProp : JsValue -> string -> Res JsValue;
  (** the route-path key of [@nestjs/common/constants] *)
  PATH_METADATA : MetaKey
}.

(** ** The service object and its monad *)

Record DiscoveryService : Type := {
  discoveredControllers : list DiscoveredClass.t;
  discoveredProviders : list DiscoveredClass.t
}.

(** A method body: it runs on the service object, returns or throws, and
    leaves a service object behind. *)
Definition M (A : Type) : Type := DiscoveryService -> Res A * DiscoveryService.

#[global] Instance M_ret : MRet M := fun A a s => (Ok a, s).
#[global] Instance M_bind : MBind M := fun A B f m s =>
  match m s with
  | (Ok a, s') => f a s'
  | (Throw e, s') => (Throw e, s')
  end.

(** A call to a collaborator or to a callback of the caller. *)
Definition call {A} (r : Res A) : M A := fun s => (r, s).

(** A read of a field of [this]. *)
Definition this {A} (field : DiscoveryService -> A) : M A :=
  fun s => (Ok (field s), s).

(** [Array.prototype.filter]: the callback runs on every element, in order. *)
Fixpoint array_filter {A} (cb : A -> M JsValue) (l : list A) : M (list A) :=
  match l with
  | [] => mret []
  | x :: l' =>
      v ← cb x;
      r ← array_filter cb l';
      mret (if ToBoolean v then x :: r else r)
  end.

(** [Array.prototype.map] is stdpp's [mapM] in [M]. *)
Definition array_map {A B} (cb : A -> M B) (l : list A) : M (list B) :=
  mapM cb l.

(** lodash [flatMap]: map, then flatten one level. *)
Definition flatMap {A B} (l : list A) (iteratee : A -> M (list B)) : M (list B) :=
  ls ← array_map iteratee l;
  mret (concat ls).

(** lodash [uniqBy]: keep an element when the value of the iteratee on it
    has not been seen. *)
Section uniqBy.
Context {A K : Type} `{EqDecision K} (iteratee : A -> K).

Fixpoint baseUniq (seen : list K) (l : list A) : list A :=
  match l with
  | [] => []
  | x :: l' =>
      if decide (iteratee x ∈ seen) then baseUniq seen l'
      else x :: baseUniq (iteratee x :: seen) l'
  end.

Definition uniqBy (l : list A) : list A := baseUniq [] l.
End uniqBy.

(** ** The service *)

Section Service.
Variable E : Env.

(** [toDiscoveredClass] *)
Definition toDiscoveredClass (nestModule : NestModule.t)
    (component : InstanceWrapper.t) : DiscoveredClass.t :=
  {| DiscoveredClass.name := InstanceWrapper.name component;
     DiscoveredClass.instance := InstanceWrapper.instance component;
     DiscoveredClass.classType := InstanceWrapper.metatype component;
     DiscoveredClass.parentModule :=
       {| DiscoveredModule.name := ctorName (NestModule.metatype nestModule);
          DiscoveredModule.instance := NestModule.instance nestModule;
          DiscoveredModule.classType :=
            JObj (ctorRef (NestModule.metatype nestModule)) |} |}.

(** The constructor.  Its two [flatMap] run callbacks that make no call, so
    they are the bind of lists. *)
Definition construct (modulesContainer : ModulesContainer) : DiscoveryService :=
  let modulesMap := entries modulesContainer in
  {| discoveredControllers :=
       mbind (M := list) (fun '(key, nestModule) =>
         let components := values (NestModule.routes nestModule) in
         toDiscoveredClass nestModule <$> components) modulesMap;
     discoveredProviders :=
       mbind (M := list) (fun '(key, nestModule) =>
         let components := values (NestModule.components nestModule) in
         toDiscoveredClass nestModule <$> components) modulesMap |}.

(** [withMetaAtKey] *)
Definition withMetaAtKey (key : MetaKey) : Filter DiscoveredClass.t :=
  fun component => getMetadata E key (DiscoveredClass.classType component).

(** The default value of a filter parameter. *)
Definition always {A} : Filter A := fun _ => Ok (JBool true).

Definition providers (filter : Filter DiscoveredClass.t)
    : M (list DiscoveredClass.t) :=
  ps ← this discoveredProviders;
  array_filter (fun x => call (filter x)) ps.

Definition controllers (filter : Filter DiscoveredClass.t)
    : M (list DiscoveredClass.t) :=
  cs ← this discoveredControllers;
  array_filter (fun x => call (filter x)) cs.

Definition providersWithMetaAtKey (metaKey : MetaKey)
    : M (list DiscoveredClassWithMeta.t) :=
  providers ← providers (withMetaAtKey metaKey);
  array_map (fun x =>
    meta ← call (getMetadata E metaKey (DiscoveredClass.classType x));
    mret {| DiscoveredClassWithMeta.meta := meta;
            DiscoveredClassWithMeta.discoveredClass := x |}) providers.

Definition controllersWithMetaAtKey (metaKey : MetaKey)
    : M (list DiscoveredClassWithMeta.t) :=
  controllers ← controllers (withMetaAtKey metaKey);
  array_map (fun x =>
    meta ← call (getMetadata E metaKey (DiscoveredClass.classType x));
    mret {| DiscoveredClassWithMeta.meta := meta;
            DiscoveredClassWithMeta.discoveredClass := x |}) controllers.

(** [extractMethodMetaAtKey] *)
Definition extractMethodMetaAtKey (metaKey : MetaKey)
    (discoveredClass : DiscoveredClass.t) (prototype : JsValue)
    (methodName : string) : M DiscoveredMethodWithMeta.t :=
  handler ← call (getProp E prototype methodName);
  meta ← call (getMetadata E metaKey handler);
  mret {| DiscoveredMethodWithMeta.meta := meta;
          DiscoveredMethodWithMeta.discoveredMethod :=
            {| DiscoveredMethod.handler := handler;
               DiscoveredMethod.methodName := methodName;
               DiscoveredMethod.parentClass := discoveredClass |} |}.

(** Modelled from the spec: [MetadataScanner.scanFromPrototype] of
    [@nestjs/core], which "produces, for each eligible method name, a value
    computed by a supplied per-method callback"; which names are eligible is
    the scanner's policy, [methodNames]. *)
Definition scanFromPrototype {R} (instance prototype : JsValue)
    (callback : string -> M R) : M (list R) :=
  names ← call (methodNames E instance prototype);
  array_map callback names.

Definition classMethodsWithMetaAtKey (component : DiscoveredClass.t)
    (metaKey : MetaKey) : M (list DiscoveredMethodWithMeta.t) :=
  let instance := DiscoveredClass.instance component in
  prototype ← call (getPrototypeOf E instance);
  scanned ← scanFromPrototype instance prototype (fun name =>
    extractMethodMetaAtKey metaKey component prototype name);
  array_filter (fun x =>
    mret (JBool (ToBoolean (DiscoveredMethodWithMeta.meta x)))) scanned.

Definition providerMethodsWithMetaAtKey (metaKey : MetaKey)
    (providerFilter : option (Filter DiscoveredClass.t))
    : M (list DiscoveredMethodWithMeta.t) :=
  providers ← providers (default always providerFilter);
  flatMap providers (fun provider =>
    classMethodsWithMetaAtKey provider metaKey).

Definition controllerMethodsWithMetaAtKey (metaKey : MetaKey)
    (controllerFilter : option (Filter DiscoveredClass.t))
    : M (list DiscoveredMethodWithMeta.t) :=
  controllers ← controllers (default always controllerFilter);
  flatMap controllers (fun controller =>
    classMethodsWithMetaAtKey controller metaKey).

(** The three steps of [methodsAndControllerMethodsWithMetaAtKey], under
    the names of its local constants. *)
Definition controllersWithMeta (metaKey : MetaKey) (metaFilter : Filter JsValue)
    : M (list DiscoveredClassWithMeta.t) :=
  cs ← controllersWithMetaAtKey metaKey;
  array_filter (fun x =>
    call (metaFilter (DiscoveredClassWithMeta.meta x))) cs.

Definition methodsFromDecoratedControllers
    (controllersWithMeta : list DiscoveredClassWithMeta.t)
    : M (list DiscoveredMethodWithMeta.t) :=
  flatMap controllersWithMeta (fun controller =>
    classMethodsWithMetaAtKey
      (DiscoveredClassWithMeta.discoveredClass controller)
      (PATH_METADATA E)).

Definition decoratedMethods (metaKey : MetaKey) (metaFilter : Filter JsValue)
    : M (list DiscoveredMethodWithMeta.t) :=
  ms ← controllerMethodsWithMetaAtKey metaKey None;
  array_filter (fun x =>
    call (metaFilter (DiscoveredMethodWithMeta.meta x))) ms.

Definition handlerOf (x : DiscoveredMethodWithMeta.t) : JsValue :=
  DiscoveredMethod.handler (DiscoveredMethodWithMeta.discoveredMethod x).

Definition methodsAndControllerMethodsWithMetaAtKey (metaKey : MetaKey)
    (metaFilter : option (Filter JsValue))
    : M (list DiscoveredMethodWithMeta.t) :=
  let metaFilter := default always metaFilter in
  controllersWithMeta ← controllersWithMeta metaKey metaFilter;
  methodsFromDecoratedControllers ←
    methodsFromDecoratedControllers controllersWithMeta;
  decoratedMethods ← decoratedMethods metaKey metaFilter;
  mret (uniqBy handlerOf (methodsFromDecoratedControllers ++ decoratedMethods)).

End Service.

(** ** What a run of a method body is *)

(** The body returns [a] on [s] and leaves [s] as it was. *)
Definition returns {A} (m : M A) (s : DiscoveryService) (a : A) : Prop :=
  m s = (Ok a, s).

(** The body never writes to the service object, whether it returns or
    throws. *)
Definition readOnly {A} (m : M A) : Prop :=
  forall s, (m s).2 = s.

(** ** The queries in the words of the specification

    Plain list functions over what the collaborators answer, to compare the
    methods with.  Each comes with the condition under which every call the
    method makes returns. *)

Section Specification.
Variable E : Env.

(** The value the annotation store gives at [k] for [target]. *)
Definition metaAt (k : MetaKey) (target : JsValue) : JsValue :=
  valueOr JUndefined (getMetadata E k target).

(** The store reports metadata at [k] for [target]: the read gives a value,
    and not [undefined], which is what a read gives where nothing is
    stored. *)
Definition reportsMetadata (k : MetaKey) (target : JsValue) : bool :=
  match getMetadata E k target with
  | Ok v => bool_decide (v ≠ JUndefined)
  | Throw _ => false
  end.

(** An element passes a filter when the filter returns a truthy value. *)
Definition passes {A} (f : Filter A) (x : A) : bool :=
  ToBoolean (valueOr JUndefined (f x)).

Definition filterReturns {A} (f : Filter A) (l : list A) : bool :=
  forallb (fun x => isOk (f x)) l.

(** A predicate, as a filter that never throws. *)
Definition predicate {A} (p : A -> bool) : Filter A :=
  fun x => Ok (JBool (p x)).

Definition classMeta (k : MetaKey) (c : DiscoveredClass.t) : JsValue :=
  metaAt k (DiscoveredClass.classType c).

Definition withMeta (k : MetaKey) (c : DiscoveredClass.t)
    : DiscoveredClassWithMeta.t :=
  {| DiscoveredClassWithMeta.meta := classMeta k c;
     DiscoveredClassWithMeta.discoveredClass := c |}.

(** The store answers for the type of every class of [cs]. *)
Definition storeReturns (k : MetaKey) (cs : list DiscoveredClass.t) : bool :=
  forallb (fun c => isOk (getMetadata E k (DiscoveredClass.classType c))) cs.

(** "first filter to records for which the external annotation store
    reports any metadata at [metaKey] keyed by the record's type reference,
    then pair each surviving record with the metadata value read at that
    key" *)
Definition spec_classesWithAnyMeta (k : MetaKey) (cs : list DiscoveredClass.t)
    : list DiscoveredClassWithMeta.t :=
  withMeta k <$>
    filter (fun c => reportsMetadata k (DiscoveredClass.classType c)) cs.

(** The same with the test the code applies: the value read is truthy. *)
Definition spec_classesWithMeta (k : MetaKey) (cs : list DiscoveredClass.t)
    : list DiscoveredClassWithMeta.t :=
  withMeta k <$> filter (fun c => ToBoolean (classMeta k c)) cs.

(** The scan of one class. *)
Definition prototypeOf (c : DiscoveredClass.t) : JsValue :=
  valueOr JUndefined (getPrototypeOf E (DiscoveredClass.instance c)).

Definition scannedNames (c : DiscoveredClass.t) : list string :=
  valueOr [] (methodNames E (DiscoveredClass.instance c) (prototypeOf c)).

Definition handlerAt (c : DiscoveredClass.t) (n : string) : JsValue :=
  valueOr JUndefined (getProp E (prototypeOf c) n).

(** One entry per method name, its metadata read from the handler. *)
Definition methodEntry (k : MetaKey) (c : DiscoveredClass.t) (n : string)
    : DiscoveredMethodWithMeta.t :=
  {| DiscoveredMethodWithMeta.meta := metaAt k (handlerAt c n);
     DiscoveredMethodWithMeta.discoveredMethod :=
       {| DiscoveredMethod.handler := handlerAt c n;
          DiscoveredMethod.methodName := n;
          DiscoveredMethod.parentClass := c |} |}.

Definition truthyMeta (x : DiscoveredMethodWithMeta.t) : bool :=
  ToBoolean (DiscoveredMethodWithMeta.meta x).

(** "Produce a [DiscoveredMethodWithMeta] per method name, then filter out
    entries where the metadata is absent/falsy." *)
Definition spec_classMethods (k : MetaKey) (c : DiscoveredClass.t)
    : list DiscoveredMethodWithMeta.t :=
  filter (fun x => truthyMeta x) (methodEntry k c <$> scannedNames c).

(** Every call of the scan of [c] at [k] returns. *)
Definition scanReturns (k : MetaKey) (c : DiscoveredClass.t) : bool :=
  isOk (getPrototypeOf E (DiscoveredClass.instance c))
  && isOk (methodNames E (DiscoveredClass.instance c) (prototypeOf c))
  && forallb (fun n =>
       isOk (getProp E (prototypeOf c) n)
       && isOk (getMetadata E k (handlerAt c n))) (scannedNames c).

(** Step 1: controllers carrying [k] at the class level whose meta passes. *)
Definition spec_taggedControllers (k : MetaKey) (f : Filter JsValue)
    (cs : list DiscoveredClass.t) : list DiscoveredClassWithMeta.t :=
  filter (fun x => passes f (DiscoveredClassWithMeta.meta x))
    (spec_classesWithMeta k cs).

(** Step 2: their methods that carry the route-path key. *)
Definition spec_inheritedMethods (k : MetaKey) (f : Filter JsValue)
    (cs : list DiscoveredClass.t) : list DiscoveredMethodWithMeta.t :=
  x ← spec_taggedControllers k f cs;
  spec_classMethods (PATH_METADATA E) (DiscoveredClassWithMeta.discoveredClass x).

(** Step 3: methods tagged with [k], across all controllers, whose meta
    passes. *)
Definition spec_directMethods (k : MetaKey) (f : Filter JsValue)
    (cs : list DiscoveredClass.t) : list DiscoveredMethodWithMeta.t :=
  filter (fun x => passes f (DiscoveredMethodWithMeta.meta x))
    (c ← cs; spec_classMethods k c).

(** Step 4: the union, list 2 followed by list 3. *)
Definition spec_methodsAndControllerMethods (k : MetaKey) (f : Filter JsValue)
    (cs : list DiscoveredClass.t) : list DiscoveredMethodWithMeta.t :=
  uniqBy handlerOf (spec_inheritedMethods k f cs ++ spec_directMethods k f cs).

(** Every call the composite query makes over the controllers [cs]
    returns. *)
Definition compositeReturns (k : MetaKey) (f : Filter JsValue)
    (cs : list DiscoveredClass.t) : bool :=
  storeReturns k cs
  && filterReturns f (DiscoveredClassWithMeta.meta <$> spec_classesWithMeta k cs)
  && forallb (scanReturns (PATH_METADATA E))
       (DiscoveredClassWithMeta.discoveredClass <$> spec_taggedControllers k f cs)
  && forallb (scanReturns k) cs
  && filterReturns f
       (DiscoveredMethodWithMeta.meta <$> (c ← cs; spec_classMethods k c)).

(** Step 1 as the specification words it, "controllers carrying [metaKey]
    at the class level": the classes for which the store reports metadata
    at [k], whatever the value. *)
Definition spec_carryingControllers (k : MetaKey) (f : Filter JsValue)
    (cs : list DiscoveredClass.t) : list DiscoveredClassWithMeta.t :=
  filter (fun x => passes f (DiscoveredClassWithMeta.meta x))
    (spec_classesWithAnyMeta k cs).

(** The composition of the four steps with that first step. *)
Definition spec_claimedComposite (k : MetaKey) (f : Filter JsValue)
    (cs : list DiscoveredClass.t) : list DiscoveredMethodWithMeta.t :=
  uniqBy handlerOf
    ((x ← spec_carryingControllers k f cs;
      spec_classMethods (PATH_METADATA E)
        (DiscoveredClassWithMeta.discoveredClass x))
     ++ spec_directMethods k f cs).

(** The store refuses a target that is absent. *)
Definition refusesAbsentTargets : Prop :=
  forall k target, absent target = true ->
    getMetadata E k target = Throw TypeError.

End Specification.

(** The entries of the container, flattened: each wrapper with its module,
    modules in iteration order and wrappers in the order of their map. *)
Definition allEntries (field : NestModule.t -> JsMap InstanceWrapper.t)
    (modulesContainer : ModulesContainer)
    : list (NestModule.t * InstanceWrapper.t) :=
  '(key, nestModule) ← entries modulesContainer;
  component ← values (field nestModule);
  [(nestModule, component)].

(** The record the constructor makes of one entry. *)
Definition discoveredEntry (e : NestModule.t * InstanceWrapper.t)
    : DiscoveredClass.t :=
  toDiscoveredClass e.1 e.2.

(** "Each raw component entry is converted to a [DiscoveredClass] by
    copying its registered name, live instance, and type reference, and
    attaching a reduced descriptor of its owning module (module name, module
    instance, module type)": [c] is the record of the entry [e]. *)
Definition recordOf (e : NestModule.t * InstanceWrapper.t)
    (c : DiscoveredClass.t) : Prop :=
  DiscoveredClass.name c = InstanceWrapper.name e.2
  /\ DiscoveredClass.instance c = InstanceWrapper.instance e.2
  /\ DiscoveredClass.classType c = InstanceWrapper.metatype e.2
  /\ DiscoveredModule.name (DiscoveredClass.parentModule c)
     = ctorName (NestModule.metatype e.1)
  /\ DiscoveredModule.instance (DiscoveredClass.parentModule c)
     = NestModule.instance e.1
  /\ DiscoveredModule.classType (DiscoveredClass.parentModule c)
     = JObj (ctorRef (NestModule.metatype e.1)).

Definition entryCount (field : NestModule.t -> JsMap InstanceWrapper.t)
    (modulesContainer : ModulesContainer) : nat :=
  sum_list ((fun '(key, nestModule) => length (field nestModule))
              <$> modulesContainer).

(** [ms] is the concatenation, in the order of [sel], of what
    [classMethodsWithMetaAtKey] returns on each class of [sel]. *)
Definition concatOfClassMethods (E : Env) (k : MetaKey) (s : DiscoveryService)
    (sel : list DiscoveredClass.t) (ms : list DiscoveredMethodWithMeta.t)
    : Prop :=
  exists mss,
    Forall2 (fun c l => returns (classMethodsWithMetaAtKey E c k) s l) sel mss
    /\ ms = concat mss.

(** ** A table-backed environment and a small application *)

Fixpoint assoc {K V} `{EqDecision K} (k : K) (l : list (K * V)) : option V :=
  match l with
  | [] => None
  | (k', v) :: l' => if decide (k = k') then Some v else assoc k l'
  end.

Record Tables : Type := {
  (** (key, target) to value *)
  metadataTable : list ((MetaKey * Ref) * JsValue);
  (** instance to prototype *)
  prototypeTable : list (Ref * Ref);
  (** prototype to its methods, in scan order *)
  methodTable : list (Ref * list (string * JsValue))
}.

(** The prototype of a primitive is a built-in object; the tables give it
    the reference [0]. *)
Definition builtinPrototype : Ref := 0.

(** The environment a set of tables gives.  The store throws a [TypeError]
    at a target that is not an object, as the reflect-metadata package
    does, and answers [undefined] where nothing is stored.
    [Object.getPrototypeOf] throws at [undefined] and [null] and gives a
    built-in prototype for the other primitives. *)
Definition tableEnv (t : Tables) : Env :=
  {| getMetadata k target :=
       match target with
       | JObj r => Ok (default JUndefined (assoc (k, r) (metadataTable t)))
       | _ => Throw TypeError
       end;
     getPrototypeOf v :=
       match v with
       | JUndefined | JNull => Throw TypeError
       | JObj r => Ok (default JNull (JObj <$> assoc r (prototypeTable t)))
       | _ => Ok (JObj builtinPrototype)
       end;
     methodNames _ prototype :=
       match prototype with
       | JObj p => Ok (default [] (assoc p (methodTable t))).*1
       | _ => Throw TypeError
       end;
     getProp prototype n :=
       match prototype with
       | JUndefined | JNull => Throw TypeError
       | JObj p =>
           Ok (default JUndefined
                 (assoc p (methodTable t) ≫= fun ms => assoc n ms))
       | _ => Ok JUndefined
       end;
     PATH_METADATA := KString "path" |}.

Module Example.

Definition ROLES : MetaKey := KString "roles".
Definition PATH : MetaKey := KString "path".

Definition tables : Tables :=
  {| metadataTable :=
       [ ((ROLES, 10), JStr "admin");   (* CatsController *)
         ((ROLES, 30), JNum 0);         (* LegacyController *)
         ((PATH, 100), JStr "cats");    (* CatsController.list *)
         ((PATH, 101), JStr "cats/new");(* CatsController.create *)
         ((ROLES, 101), JStr "owner");
         ((PATH, 200), JStr "dogs");    (* DogsController.bark *)
         ((ROLES, 200), JStr "user");
         ((PATH, 201), JStr "dogs/sleep");
         ((PATH, 300), JStr "ping");    (* LegacyController.ping *)
         ((ROLES, 400), JStr "worker")  (* CatsService.feed *)
       ];
     prototypeTable := [ (11, 12); (21, 22); (31, 32); (41, 42); (51, 52) ];
     methodTable :=
       [ (12, [ ("list", JObj 100); ("create", JObj 101); ("helper", JObj 102) ]);
         (22, [ ("bark", JObj 200); ("sleep", JObj 201) ]);
         (32, [ ("ping", JObj 300) ]);
         (42, [ ("feed", JObj 400); ("count", JObj 401) ]);
         (52, [])
       ] |}.

Definition strictEnv : Env := tableEnv tables.

Definition AppModule : NestModule.t :=
  {| NestModule.metatype := {| ctorRef := 1; ctorName := "AppModule" |};
     NestModule.instance := JObj 2;
     NestModule.routes :=
       [ ("CatsController", InstanceWrapper.mk "CatsController" (JObj 11) (JObj 10));
         ("DogsController", InstanceWrapper.mk "DogsController" (JObj 21) (JObj 20));
         ("LegacyController", InstanceWrapper.mk "LegacyController" (JObj 31) (JObj 30)) ];
     NestModule.components :=
       [ ("CatsService", InstanceWrapper.mk "CatsService" (JObj 41) (JObj 40));
         (* a value provider: no class behind it *)
         ("CONFIG", InstanceWrapper.mk "CONFIG" (JObj 51) JNull) ] |}.

Definition container : ModulesContainer := [ ("AppModule", AppModule) ].

Definition service : DiscoveryService := construct container.

Definition parent : DiscoveredModule.t :=
  DiscoveredModule.mk "AppModule" (JObj 2) (JObj 1).

Definition CatsController : DiscoveredClass.t :=
  DiscoveredClass.mk "CatsController" (JObj 11) (JObj 10) parent.
Definition DogsController : DiscoveredClass.t :=
  DiscoveredClass.mk "DogsController" (JObj 21) (JObj 20) parent.
Definition LegacyController : DiscoveredClass.t :=
  DiscoveredClass.mk "LegacyController" (JObj 31) (JObj 30) parent.
Definition CatsService : DiscoveredClass.t :=
  DiscoveredClass.mk "CatsService" (JObj 41) (JObj 40) parent.
Definition CONFIG : DiscoveredClass.t :=
  DiscoveredClass.mk "CONFIG" (JObj 51) JNull parent.

Definition method (meta : JsValue) (handler : Ref) (name : string)
    (c : DiscoveredClass.t) : DiscoveredMethodWithMeta.t :=
  DiscoveredMethodWithMeta.mk meta (DiscoveredMethod.mk (JObj handler) name c).

(** A service with controllers only, and one with only the legacy
    controller, whose class-level value at [ROLES] is [0]. *)
Definition controllersOnly : DiscoveryService :=
  {| discoveredControllers := discoveredControllers service;
     discoveredProviders := [] |}.
Definition legacyOnly : DiscoveryService :=
  {| discoveredControllers := [LegacyController];
     discoveredProviders := [LegacyController] |}.

(** [meta => meta !== 'user'] *)
Definition notUser : Filter JsValue :=
  predicate (fun v => bool_decide (v ≠ JStr "user")).

(** [c => c.name !== 'CatsController'] *)
Definition notCats : Filter DiscoveredClass.t :=
  predicate (fun c => bool_decide (DiscoveredClass.name c ≠ "CatsController")).

End Example.


(** ** Further notions, for the properties beyond the specification *)

Definition parentOf (x : DiscoveredMethodWithMeta.t) : DiscoveredClass.t :=
  DiscoveredMethod.parentClass (DiscoveredMethodWithMeta.discoveredMethod x).

Definition nameOf (x : DiscoveredMethodWithMeta.t) : string :=
  DiscoveredMethod.methodName (DiscoveredMethodWithMeta.discoveredMethod x).

(** An entry of a scan at [k]: the handler is what the prototype of the
    parent class has under the method name, and the meta is the truthy
    value the store has at [k] for that handler. *)
Definition scannedEntry (E : Env) (k : MetaKey)
    (x : DiscoveredMethodWithMeta.t) : Prop :=
  getProp E (prototypeOf E (parentOf x)) (nameOf x) = Ok (handlerOf x)
  /\ getMetadata E k (handlerOf x) = Ok (DiscoveredMethodWithMeta.meta x)
  /\ ToBoolean (DiscoveredMethodWithMeta.meta x) = true.

(** An entry the composite query has through the class of the method: the
    class is a controller whose value at [k] is truthy and passes the
    filter, and the entry is one of the scan at the route-path key. *)
Definition inheritedEntry (E : Env) (k : MetaKey) (f : Filter JsValue)
    (cs : list DiscoveredClass.t) (x : DiscoveredMethodWithMeta.t) : Prop :=
  parentOf x ∈ cs
  /\ ToBoolean (classMeta E k (parentOf x)) = true
  /\ passes f (classMeta E k (parentOf x)) = true
  /\ scannedEntry E (PATH_METADATA E) x.

(** An entry the composite query has through the method itself: an entry
    of the scan at [k] whose meta passes the filter. *)
Definition directEntry (E : Env) (k : MetaKey) (f : Filter JsValue)
    (cs : list DiscoveredClass.t) (x : DiscoveredMethodWithMeta.t) : Prop :=
  parentOf x ∈ cs
  /\ scannedEntry E k x
  /\ passes f (DiscoveredMethodWithMeta.meta x) = true.

(** The calls of a method query over the classes [l] return: the filter on
    every class, the scan on every class the filter keeps. *)
Definition methodQueryReturns (E : Env) (k : MetaKey)
    (f : Filter DiscoveredClass.t) (l : list DiscoveredClass.t) : bool :=
  filterReturns f l
  && forallb (scanReturns E k) (filter (fun x => passes f x) l).

(** The result of a run depends on the service object through [field]
    only. *)
Definition readsOnly {A F} (field : DiscoveryService -> F) (m : M A) : Prop :=
  forall s1 s2, field s1 = field s2 -> (m s1).1 = (m s2).1.

Module Cases.

(** [c => { if (c.name === 'DogsController') throw 'boom'; return true }] *)
Definition failsOnDogs : Filter DiscoveredClass.t :=
  fun c =>
    if bool_decide (DiscoveredClass.name c = "DogsController")
    then Throw (Thrown (JStr "boom"))
    else Ok (JBool true).

(** A provider whose instance is [undefined]. *)
Definition Broken : DiscoveredClass.t :=
  DiscoveredClass.mk "Broken" JUndefined (JObj 60) Example.parent.

Definition withBroken : DiscoveryService :=
  {| discoveredControllers := [Example.CatsController; Broken];
     discoveredProviders := [Example.CatsService; Broken] |}.

(** A second module, with one controller and no provider. *)
Definition AdminModule : NestModule.t :=
  {| NestModule.metatype := {| ctorRef := 3; ctorName := "AdminModule" |};
     NestModule.instance := JObj 4;
     NestModule.routes :=
       [ ("AdminController",
          InstanceWrapper.mk "AdminController" (JObj 71) (JObj 70)) ];
     NestModule.components := [] |}.

(** Collaborators that throw whatever they are asked, and a filter that
    does. *)
Definition deadEnv : Env :=
  {| getMetadata _ _ := Throw TypeError;
     getPrototypeOf _ := Throw TypeError;
     methodNames _ _ := Throw TypeError;
     getProp _ _ := Throw TypeError;
     PATH_METADATA := KString "path" |}.

Definition deadFilter {A} : Filter A := fun _ => Throw TypeError.

(** A module with a mail service, whose class carries metadata at
    [ROLES], and the value provider of the example, which has no class. *)
Definition MailModule : NestModule.t :=
  {| NestModule.metatype := {| ctorRef := 5; ctorName := "MailModule" |};
     NestModule.instance := JObj 6;
     NestModule.routes := [];
     NestModule.components :=
       [ ("MailService", InstanceWrapper.mk "MailService" (JObj 81) (JObj 80));
         ("CONFIG", InstanceWrapper.mk "CONFIG" (JObj 51) JNull) ] |}.

Definition mailParent : DiscoveredModule.t :=
  DiscoveredModule.mk "MailModule" (JObj 6) (JObj 5).

Definition MailService : DiscoveredClass.t :=
  DiscoveredClass.mk "MailService" (JObj 81) (JObj 80) mailParent.

Definition MailConfig : DiscoveredClass.t :=
  DiscoveredClass.mk "CONFIG" (JObj 51) JNull mailParent.

Definition mailTables : Tables :=
  {| metadataTable :=
       [ ((Example.ROLES, 80), JStr "mailer");   (* MailService *)
         ((Example.ROLES, 800), JStr "sender")   (* MailService.send *) ];
     prototypeTable := [ (81, 82); (51, 52) ];
     methodTable := [ (82, [ ("send", JObj 800) ]); (52, []) ] |}.

Definition mailEnv : Env := tableEnv mailTables.

(** The application of that module, and the same without the value
    provider. *)
Definition mailApp : DiscoveryService :=
  construct [ ("MailModule", MailModule) ].

Definition mailOnly : DiscoveryService :=
  {| discoveredControllers := [];
     discoveredProviders := [MailService] |}.

(** [c => c.name === 'DogsController'] *)
Definition onlyDogs (c : DiscoveredClass.t) : bool :=
  bool_decide (DiscoveredClass.name c = "DogsController").

End Cases.

(** * Proofs *)

(** ** The monad *)

Section Monad.
Context {A B : Type}.
Implicit Types (s : DiscoveryService).

Lemma bind_unfold (m : M A) (f : A -> M B) s :
  (m ≫= f) s =
  match m s with
  | (Ok a, s') => f a s'
  | (Throw e, s') => (Throw e, s')
  end.
Proof. reflexivity. Qed.

Lemma returns_ret (a : A) s : returns (mret a) s a.
Proof. reflexivity. Qed.

Lemma returns_call (r : Res A) (a : A) s : r = Ok a -> returns (call r) s a.
Proof. by intros ->. Qed.

Lemma returns_this (field : DiscoveryService -> A) s :
  returns (this field) s (field s).
Proof. reflexivity. Qed.

Lemma returns_bind (m : M A) (f : A -> M B) s a b :
  returns m s a -> returns (f a) s b -> returns (m ≫= f) s b.
Proof. unfold returns. intros Hm Hf. by rewrite bind_unfold, Hm. Qed.

(** A bind that returned: so did both halves. *)
Lemma bind_Ok (m : M A) (f : A -> M B) s s' b :
  (m ≫= f) s = (Ok b, s') ->
  exists a s1, m s = (Ok a, s1) /\ f a s1 = (Ok b, s').
Proof.
  rewrite bind_unfold. destruct (m s) as [[a|e] s1]; [|done].
  intros Hf. by exists a, s1.
Qed.

(** A bind whose first half throws, throws the same. *)
Lemma bind_Throw (m : M A) (f : A -> M B) s s' e :
  m s = (Throw e, s') -> (m ≫= f) s = (Throw e, s').
Proof. intros Hm. by rewrite bind_unfold, Hm. Qed.

Lemma readOnly_ret (a : A) : readOnly (mret a : M A).
Proof. by intros s. Qed.

Lemma readOnly_call (r : Res A) : readOnly (call r).
Proof. by intros s. Qed.

Lemma readOnly_this (field : DiscoveryService -> A) : readOnly (this field).
Proof. by intros s. Qed.

Lemma readOnly_bind (m : M A) (f : A -> M B) :
  readOnly m -> (forall a, readOnly (f a)) -> readOnly (m ≫= f).
Proof.
  intros Hm Hf s. rewrite bind_unfold.
  specialize (Hm s). destruct (m s) as [[a|e] s1]; simpl in *; subst; [|done].
  apply Hf.
Qed.

(** On a read-only body, the first component of a run tells all. *)
Lemma readOnly_returns (m : M A) s a :
  readOnly m -> (m s).1 = Ok a -> returns m s a.
Proof.
  intros Hm Ha. specialize (Hm s). unfold returns.
  destruct (m s) as [r s1]; simpl in *. by subst.
Qed.

End Monad.

(** ** Arrays *)

Section Arrays.
Context {A B : Type}.
Implicit Types (s : DiscoveryService).

Lemma readOnly_array_filter (cb : A -> M JsValue) (l : list A) :
  (forall x, readOnly (cb x)) -> readOnly (array_filter cb l).
Proof.
  intros Hcb. induction l as [|x l IH]; simpl.
  - apply readOnly_ret.
  - apply readOnly_bind; [done|]. intros v.
    apply readOnly_bind; [done|]. intros r. apply readOnly_ret.
Qed.

Lemma readOnly_array_map (cb : A -> M B) (l : list A) :
  (forall x, readOnly (cb x)) -> readOnly (array_map cb l).
Proof.
  intros Hcb. unfold array_map. induction l as [|x l IH]; simpl.
  - apply readOnly_ret.
  - apply readOnly_bind; [done|]. intros v.
    apply readOnly_bind; [done|]. intros r. apply readOnly_ret.
Qed.


(** A filter whose callback returns on every element keeps the elements
    on which it returned a truthy value, in their order. *)
Lemma returns_array_filter (cb : A -> M JsValue) (g : A -> JsValue) l s :
  Forall (fun x => returns (cb x) s (g x)) l ->
  returns (array_filter cb l) s (filter (fun x => ToBoolean (g x)) l).
Proof.
  induction 1 as [|x l Hx Hl IH]; simpl; [done|].
  eapply returns_bind; [exact Hx|].
  eapply returns_bind; [exact IH|].
  rewrite filter_cons. unfold returns; simpl.
  by destruct (ToBoolean (g x)); simpl.
Qed.

Lemma returns_array_map2 (cb : A -> M B) l ys s :
  Forall2 (fun x y => returns (cb x) s y) l ys ->
  returns (array_map cb l) s ys.
Proof.
  unfold array_map. induction 1 as [|x y l ys Hx Hl IH]; simpl; [done|].
  eapply returns_bind; [exact Hx|].
  eapply returns_bind; [exact IH|]. done.
Qed.

Lemma returns_array_map (cb : A -> M B) (g : A -> B) l s :
  Forall (fun x => returns (cb x) s (g x)) l ->
  returns (array_map cb l) s (g <$> l).
Proof.
  intros H. apply returns_array_map2.
  induction H; simpl; by constructor.
Qed.



(** What a map that returned has returned. *)
Lemma array_map_Ok (cb : A -> M B) l ys s :
  (forall x, readOnly (cb x)) ->
  (array_map cb l s).1 = Ok ys ->
  Forall2 (fun x y => returns (cb x) s y) l ys.
Proof.
  intros Hro. unfold array_map. revert ys.
  induction l as [|x l IH]; simpl; intros ys Hys.
  - injection Hys as <-. constructor.
  - rewrite bind_unfold in Hys.
    pose proof (Hro x s) as Hs.
    destruct (cb x s) as [[y|e] s1] eqn:Hx; simpl in *; subst s1; [|done].
    rewrite bind_unfold in Hys.
    destruct (mapM cb l s) as [[r|e] s1] eqn:Hl; simpl in *; [|done].
    injection Hys as <-. constructor; [done|]. by apply IH.
Qed.

(** What a filter that returned has returned: on every element the
    callback returned, and the result keeps the truthy ones. *)
Lemma array_filter_Ok (cb : A -> M JsValue) l r s :
  (forall x, readOnly (cb x)) ->
  (array_filter cb l s).1 = Ok r ->
  exists g, Forall (fun x => returns (cb x) s (g x)) l
            /\ r = filter (fun x => ToBoolean (g x)) l.
Proof.
  intros Hro Hr.
  exists (fun x => valueOr JUndefined (cb x s).1).
  revert r Hr. induction l as [|x l IH]; simpl; intros r Hr.
  - injection Hr as <-. by split.
  - rewrite bind_unfold in Hr.
    pose proof (Hro x s) as Hs.
    destruct (cb x s) as [[v|e] s1] eqn:Hx; simpl in *; subst s1; [|done].
    rewrite bind_unfold in Hr.
    destruct (array_filter cb l s) as [[r'|e] s1] eqn:Hl; simpl in *; [|done].
    injection Hr as <-.
    destruct (IH r' eq_refl) as [HF ->]. split.
    + constructor; [|done]. unfold returns. by rewrite Hx.
    + rewrite filter_cons, Hx. simpl. by destruct (ToBoolean v).
Qed.

End Arrays.

Section FlatMap.
Context {A B : Type}.
Implicit Types (s : DiscoveryService).

Lemma readOnly_flatMap (l : list A) (f : A -> M (list B)) :
  (forall x, readOnly (f x)) -> readOnly (flatMap l f).
Proof.
  intros Hf. apply readOnly_bind; [by apply readOnly_array_map|].
  intros ls. apply readOnly_ret.
Qed.

Lemma returns_flatMap2 (f : A -> M (list B)) l yss s :
  Forall2 (fun x ys => returns (f x) s ys) l yss ->
  returns (flatMap l f) s (concat yss).
Proof.
  intros H. eapply returns_bind; [by apply returns_array_map2|done].
Qed.

Lemma returns_flatMap (f : A -> M (list B)) (g : A -> list B) l s :
  Forall (fun x => returns (f x) s (g x)) l ->
  returns (flatMap l f) s (l ≫= g).
Proof.
  intros H. eapply returns_bind; [by apply returns_array_map|].
  replace (l ≫= g) with (concat (g <$> l)); [done|].
  clear H. induction l as [|x l IH]; [done|].
  change (g x ++ concat (g <$> l) = g x ++ (l ≫= g)). by rewrite IH.
Qed.

End FlatMap.

(** ** [uniqBy] *)

Section UniqBy.
Context {A K : Type} `{EqDecision K} (key : A -> K).
Implicit Types (l : list A) (seen : list K).

Lemma baseUniq_sublist seen l : baseUniq key seen l `sublist_of` l.
Proof.
  revert seen. induction l as [|x l IH]; intros seen; simpl; [done|].
  destruct (decide (key x ∈ seen)).
  - by apply sublist_cons.
  - by apply sublist_skip.
Qed.

Lemma baseUniq_fresh seen l y :
  y ∈ baseUniq key seen l -> key y ∉ seen.
Proof.
  revert seen. induction l as [|x l IH]; intros seen; simpl.
  - by intros ?%elem_of_nil.
  - destruct (decide (key x ∈ seen)) as [|Hx]; [by apply IH|].
    intros [->|Hy]%elem_of_cons; [done|].
    apply IH in Hy. intros Hin. apply Hy. by right.
Qed.

Lemma baseUniq_NoDup seen l : NoDup (key <$> baseUniq key seen l).
Proof.
  revert seen. induction l as [|x l IH]; intros seen; simpl.
  - constructor.
  - destruct (decide (key x ∈ seen)) as [|Hx]; [by apply IH|].
    rewrite fmap_cons. constructor; [|by apply IH].
    intros (y & Hk & Hy)%list_elem_of_fmap.
    apply baseUniq_fresh in Hy. apply Hy. rewrite Hk. by left.
Qed.

(** An element that is kept is the first of the list with its key. *)
Lemma baseUniq_first seen l y :
  y ∈ baseUniq key seen l ->
  exists pre post, l = pre ++ y :: post /\ key y ∉ key <$> pre.
Proof.
  revert seen. induction l as [|x l IH]; intros seen; simpl.
  - by intros ?%elem_of_nil.
  - destruct (decide (key x ∈ seen)) as [Hx|Hx].
    + intros Hy. pose proof (baseUniq_fresh _ _ _ Hy) as Hfresh.
      destruct (IH _ Hy) as (pre & post & -> & Hpre).
      exists (x :: pre), post. split; [done|].
      rewrite fmap_cons. intros [Heq|Hin]%elem_of_cons; [|done].
      apply Hfresh. by rewrite Heq.
    + intros [->|Hy]%elem_of_cons.
      * exists [], l. split; [done|]. simpl. by intros ?%elem_of_nil.
      * pose proof (baseUniq_fresh _ _ _ Hy) as Hfresh.
        destruct (IH _ Hy) as (pre & post & -> & Hpre).
        exists (x :: pre), post. split; [done|].
        rewrite fmap_cons. intros [Heq|Hin]%elem_of_cons; [|done].
        apply Hfresh. rewrite Heq. by left.
Qed.

(** No key is lost. *)
Lemma baseUniq_cover seen l x :
  x ∈ l -> key x ∈ seen \/ key x ∈ key <$> baseUniq key seen l.
Proof.
  revert seen. induction l as [|z l IH]; intros seen; simpl.
  - by intros ?%elem_of_nil.
  - intros [->|Hx]%elem_of_cons.
    + destruct (decide (key z ∈ seen)); [by left|].
      right. rewrite fmap_cons. by left.
    + destruct (decide (key z ∈ seen)) as [Hz|Hz]; [by apply IH|].
      destruct (IH (key z :: seen) Hx) as [[->|Hin]%elem_of_cons|Hin].
      * right. rewrite fmap_cons. by left.
      * by left.
      * right. rewrite fmap_cons. by right.
Qed.

Lemma uniqBy_sublist l : uniqBy key l `sublist_of` l.
Proof. apply baseUniq_sublist. Qed.

Lemma uniqBy_NoDup l : NoDup (key <$> uniqBy key l).
Proof. apply baseUniq_NoDup. Qed.

Lemma uniqBy_first l y :
  y ∈ uniqBy key l ->
  exists pre post, l = pre ++ y :: post /\ key y ∉ key <$> pre.
Proof. apply baseUniq_first. Qed.

Lemma uniqBy_cover l x : x ∈ l -> key x ∈ key <$> uniqBy key l.
Proof.
  intros Hx. destruct (baseUniq_cover [] l x Hx) as [Hin|Hin]; [|done].
  by apply elem_of_nil in Hin.
Qed.

End UniqBy.

(** ** The methods never write *)

Ltac read_only :=
  repeat first
    [ progress intros
    | apply readOnly_ret | apply readOnly_call | apply readOnly_this
    | apply readOnly_bind
    | apply readOnly_array_filter | apply readOnly_array_map
    | apply readOnly_flatMap ].

Section ReadOnly.
Variable E : Env.

Lemma readOnly_providers f : readOnly (providers f).
Proof. unfold providers. read_only. Qed.

Lemma readOnly_controllers f : readOnly (controllers f).
Proof. unfold controllers. read_only. Qed.

Lemma readOnly_providersWithMetaAtKey k : readOnly (providersWithMetaAtKey E k).
Proof. unfold providersWithMetaAtKey, providers. read_only. Qed.

Lemma readOnly_controllersWithMetaAtKey k :
  readOnly (controllersWithMetaAtKey E k).
Proof. unfold controllersWithMetaAtKey, controllers. read_only. Qed.

Lemma readOnly_extractMethodMetaAtKey k c p n :
  readOnly (extractMethodMetaAtKey E k c p n).
Proof. unfold extractMethodMetaAtKey. read_only. Qed.

Lemma readOnly_classMethodsWithMetaAtKey c k :
  readOnly (classMethodsWithMetaAtKey E c k).
Proof.
  unfold classMethodsWithMetaAtKey, scanFromPrototype, extractMethodMetaAtKey.
  read_only.
Qed.

Lemma readOnly_providerMethodsWithMetaAtKey k f :
  readOnly (providerMethodsWithMetaAtKey E k f).
Proof.
  unfold providerMethodsWithMetaAtKey.
  read_only; auto using readOnly_providers, readOnly_classMethodsWithMetaAtKey.
Qed.

Lemma readOnly_controllerMethodsWithMetaAtKey k f :
  readOnly (controllerMethodsWithMetaAtKey E k f).
Proof.
  unfold controllerMethodsWithMetaAtKey.
  read_only; auto using readOnly_controllers, readOnly_classMethodsWithMetaAtKey.
Qed.

Lemma readOnly_controllersWithMeta k f : readOnly (controllersWithMeta E k f).
Proof.
  unfold controllersWithMeta.
  read_only; auto using readOnly_controllersWithMetaAtKey.
Qed.

Lemma readOnly_methodsFromDecoratedControllers cs :
  readOnly (methodsFromDecoratedControllers E cs).
Proof.
  unfold methodsFromDecoratedControllers.
  read_only; auto using readOnly_classMethodsWithMetaAtKey.
Qed.

Lemma readOnly_decoratedMethods k f : readOnly (decoratedMethods E k f).
Proof.
  unfold decoratedMethods.
  read_only; auto using readOnly_controllerMethodsWithMetaAtKey.
Qed.

Lemma readOnly_methodsAndControllerMethodsWithMetaAtKey k f :
  readOnly (methodsAndControllerMethodsWithMetaAtKey E k f).
Proof.
  unfold methodsAndControllerMethodsWithMetaAtKey.
  read_only; auto using readOnly_controllersWithMeta,
    readOnly_methodsFromDecoratedControllers, readOnly_decoratedMethods.
Qed.

End ReadOnly.

(** ** What the methods return when their calls return *)

Lemma forallb_Forall {A} (f : A -> bool) (l : list A) :
  forallb f l = true -> Forall (fun x => f x = true) l.
Proof.
  induction l as [|x l IH]; simpl; [constructor|].
  intros [Hx Hl]%andb_prop. constructor; auto.
Qed.

Lemma isOk_valueOr {A} (d : A) (r : Res A) : isOk r = true -> r = Ok (valueOr d r).
Proof. by destruct r. Qed.

Section Returns.
Variable E : Env.
Implicit Types (s : DiscoveryService) (k : MetaKey) (c : DiscoveredClass.t).

(** A filter by a callback of the caller. *)
Lemma returns_filter_call {A} (f : Filter A) (l : list A) s :
  filterReturns f l = true ->
  returns (array_filter (fun x => call (f x)) l) s
          (filter (fun x => passes f x) l).
Proof.
  intros H%forallb_Forall. unfold passes.
  apply (returns_array_filter _ (fun x => valueOr JUndefined (f x))).
  eapply Forall_impl; [exact H|]. intros x Hx. simpl in Hx.
  by apply returns_call, isOk_valueOr.
Qed.

Lemma returns_providers f s :
  filterReturns f (discoveredProviders s) = true ->
  returns (providers f) s (filter (fun x => passes f x) (discoveredProviders s)).
Proof.
  intros H. eapply returns_bind; [apply returns_this|].
  by apply returns_filter_call.
Qed.

Lemma returns_controllers f s :
  filterReturns f (discoveredControllers s) = true ->
  returns (controllers f) s
          (filter (fun x => passes f x) (discoveredControllers s)).
Proof.
  intros H. eapply returns_bind; [apply returns_this|].
  by apply returns_filter_call.
Qed.

Lemma filterReturns_always {A} (l : list A) : filterReturns always l = true.
Proof. by induction l. Qed.

Lemma filter_always {A} (l : list A) :
  filter (fun x => passes (@always A) x) l = l.
Proof.
  induction l as [|x l IH]; [done|].
  rewrite filter_cons_True; [by rewrite IH|done].
Qed.

Lemma returns_all_controllers s :
  returns (controllers always) s (discoveredControllers s).
Proof.
  rewrite <- (filter_always (discoveredControllers s)) at 1.
  apply returns_controllers, filterReturns_always.
Qed.

Lemma returns_all_providers s :
  returns (providers always) s (discoveredProviders s).
Proof.
  rewrite <- (filter_always (discoveredProviders s)) at 1.
  apply returns_providers, filterReturns_always.
Qed.

(** The pairing of the survivors with their metadata. *)
Lemma returns_pairing k (l : list DiscoveredClass.t) s :
  storeReturns E k l = true ->
  returns
    (array_map (fun x =>
       meta ← call (getMetadata E k (DiscoveredClass.classType x));
       mret {| DiscoveredClassWithMeta.meta := meta;
               DiscoveredClassWithMeta.discoveredClass := x |}) l) s
    (withMeta E k <$> l).
Proof.
  intros H%forallb_Forall. apply returns_array_map.
  eapply Forall_impl; [exact H|]. intros x Hx. simpl in Hx.
  eapply returns_bind; [by apply returns_call, isOk_valueOr|done].
Qed.

Lemma storeReturns_filter k (P : DiscoveredClass.t -> Prop)
    `{forall x, Decision (P x)} (l : list DiscoveredClass.t) :
  storeReturns E k l = true -> storeReturns E k (filter P l) = true.
Proof.
  unfold storeReturns. induction l as [|x l IH]; simpl; [done|].
  intros [Hx Hl]%andb_prop. rewrite filter_cons.
  destruct (decide (P x)); simpl; [rewrite Hx; simpl|]; auto.
Qed.

Lemma returns_providersWithMetaAtKey k s :
  storeReturns E k (discoveredProviders s) = true ->
  returns (providersWithMetaAtKey E k) s
          (spec_classesWithMeta E k (discoveredProviders s)).
Proof.
  intros H. eapply returns_bind.
  - apply returns_providers. exact H.
  - unfold spec_classesWithMeta. apply returns_pairing.
    by apply storeReturns_filter.
Qed.

Lemma returns_controllersWithMetaAtKey k s :
  storeReturns E k (discoveredControllers s) = true ->
  returns (controllersWithMetaAtKey E k) s
          (spec_classesWithMeta E k (discoveredControllers s)).
Proof.
  intros H. eapply returns_bind.
  - apply returns_controllers. exact H.
  - unfold spec_classesWithMeta. apply returns_pairing.
    by apply storeReturns_filter.
Qed.

(** The scan of one class. *)
Lemma returns_classMethodsWithMetaAtKey c k s :
  scanReturns E k c = true ->
  returns (classMethodsWithMetaAtKey E c k) s (spec_classMethods E k c).
Proof.
  unfold scanReturns. intros [[Hp Hn]%andb_prop Hms%forallb_Forall]%andb_prop.
  unfold classMethodsWithMetaAtKey.
  eapply returns_bind.
  { apply returns_call, (isOk_valueOr JUndefined), Hp. }
  fold (prototypeOf E c).
  eapply returns_bind.
  { eapply returns_bind.
    { apply returns_call, (isOk_valueOr []), Hn. }
    fold (scannedNames E c).
    apply (returns_array_map _ (methodEntry E k c)).
    eapply Forall_impl; [exact Hms|]. intros n [Hh Hm]%andb_prop.
    eapply returns_bind.
    { apply returns_call, (isOk_valueOr JUndefined), Hh. }
    fold (handlerAt E c n).
    eapply returns_bind.
    { apply returns_call, (isOk_valueOr JUndefined), Hm. }
    done. }
  unfold spec_classMethods, truthyMeta.
  apply (returns_array_filter _
    (fun x => JBool (ToBoolean (DiscoveredMethodWithMeta.meta x)))).
  apply Forall_forall. intros x _. apply returns_ret.
Qed.

Lemma returns_scans k (l : list DiscoveredClass.t) s :
  forallb (scanReturns E k) l = true ->
  returns (flatMap l (fun c => classMethodsWithMetaAtKey E c k)) s
          (c ← l; spec_classMethods E k c).
Proof.
  intros H%forallb_Forall. apply returns_flatMap.
  eapply Forall_impl; [exact H|]. intros c Hc.
  by apply returns_classMethodsWithMetaAtKey.
Qed.

End Returns.

(** ** The snapshot *)

Lemma construct_field (field : NestModule.t -> JsMap InstanceWrapper.t)
    (mc : ModulesContainer) :
  (entries mc ≫= fun '(key, nestModule) =>
     toDiscoveredClass nestModule <$> values (field nestModule))
  = discoveredEntry <$> allEntries field mc.
Proof.
  unfold allEntries, entries.
  induction mc as [|[key m] mc IH]; [done|].
  rewrite !bind_cons, fmap_app, IH. f_equal.
  induction (values (field m)) as [|w l IHl]; [done|].
  rewrite bind_cons, fmap_cons, IHl. done.
Qed.

Lemma length_allEntries (field : NestModule.t -> JsMap InstanceWrapper.t)
    (mc : ModulesContainer) :
  length (allEntries field mc) = entryCount field mc.
Proof.
  unfold allEntries, entryCount, entries.
  induction mc as [|[key m] mc IH]; [done|].
  rewrite bind_cons, length_app, IH, fmap_cons. simpl. f_equal.
  unfold values. induction (field m) as [|[n w] l IHl]; [done|].
  rewrite fmap_cons, bind_cons. simpl. by rewrite IHl.
Qed.

Lemma recordOf_discoveredEntry (l : list (NestModule.t * InstanceWrapper.t)) :
  Forall2 recordOf l (discoveredEntry <$> l).
Proof.
  induction l as [|e l IH]; [constructor|].
  rewrite fmap_cons. constructor; [|exact IH].
  unfold recordOf, discoveredEntry. by split_and!.
Qed.

(** C3. The lists the constructor builds are the whole container:
    [controllers(() => true)] and [providers(() => true)] return one
    record per entry of the routes, respectively components, maps of all
    modules, each entry once, modules in the order of the container and
    entries in the order of their map.  The record at a position is the
    record of the entry at that position: it has the name, instance and type
    of the component and the name, instance and type of its module.  There
    are as many records as there are entries. *)
Theorem C3_snapshot_is_exhaustive (mc : ModulesContainer) :
  let s := construct mc in
  let cs := discoveredEntry <$> allEntries NestModule.routes mc in
  let ps := discoveredEntry <$> allEntries NestModule.components mc in
  returns (controllers always) s cs
  /\ returns (providers always) s ps
  /\ Forall2 recordOf (allEntries NestModule.routes mc) cs
  /\ Forall2 recordOf (allEntries NestModule.components mc) ps
  /\ length cs = entryCount NestModule.routes mc
  /\ length ps = entryCount NestModule.components mc.
Proof.
  intros s cs ps. split_and!.
  - unfold cs. rewrite <- construct_field.
    apply (returns_all_controllers s).
  - unfold ps. rewrite <- construct_field.
    apply (returns_all_providers s).
  - apply recordOf_discoveredEntry.
  - apply recordOf_discoveredEntry.
  - unfold cs. by rewrite length_fmap, length_allEntries.
  - unfold ps. by rewrite length_fmap, length_allEntries.
Qed.

Lemma C3_snapshot_is_exhaustive_witness :
  returns (controllers always) (construct Example.container)
    [ Example.CatsController; Example.DogsController;
      Example.LegacyController ]
  /\ returns (providers always) (construct Example.container)
       [ Example.CatsService; Example.CONFIG ]
  /\ returns (providers always)
       (construct (Example.container ++ [ ("MailModule", Cases.MailModule) ]))
       [ Example.CatsService; Example.CONFIG;
         Cases.MailService; Cases.MailConfig ].
Proof.
  destruct (C3_snapshot_is_exhaustive Example.container) as (Hc & Hp & _).
  destruct (C3_snapshot_is_exhaustive
              (Example.container ++ [ ("MailModule", Cases.MailModule) ]))
    as (_ & Hp2 & _).
  split_and!; [exact Hc | exact Hp | exact Hp2].
Defined.

(** ** Filtering *)

Lemma filter_predicate {A} (p : A -> bool) (l : list A) :
  filter (fun x => passes (predicate p) x) l = filter (fun x => p x) l.
Proof. done. Qed.

Lemma filterReturns_predicate {A} (p : A -> bool) (l : list A) :
  filterReturns (predicate p) l = true.
Proof. by induction l. Qed.

(** C4. For a predicate [p], [controllers(p)] is the sublist of
    [controllers(() => true)] of the elements on which [p] is true, in
    the order of that list; likewise [providers(p)]. *)
Theorem C4_filter_is_subsequence (p : DiscoveredClass.t -> bool)
    (s : DiscoveryService) :
  (exists all,
     returns (controllers always) s all
     /\ returns (controllers (predicate p)) s (filter (fun x => p x) all)
     /\ filter (fun x => p x) all `sublist_of` all
     /\ forall x, x ∈ filter (fun x => p x) all <-> p x = true /\ x ∈ all)
  /\ (exists all,
     returns (providers always) s all
     /\ returns (providers (predicate p)) s (filter (fun x => p x) all)
     /\ filter (fun x => p x) all `sublist_of` all
     /\ forall x, x ∈ filter (fun x => p x) all <-> p x = true /\ x ∈ all).
Proof.
  split.
  - exists (discoveredControllers s). split_and!.
    + apply returns_all_controllers.
    + rewrite <- filter_predicate.
      apply returns_controllers, filterReturns_predicate.
    + apply sublist_filter.
    + intros x. by rewrite list_elem_of_filter, Is_true_true.
  - exists (discoveredProviders s). split_and!.
    + apply returns_all_providers.
    + rewrite <- filter_predicate.
      apply returns_providers, filterReturns_predicate.
    + apply sublist_filter.
    + intros x. by rewrite list_elem_of_filter, Is_true_true.
Qed.

(** ** Classes with metadata *)

Lemma truthy_metaAt (E : Env) k target :
  ToBoolean (metaAt E k target) = true ->
  getMetadata E k target = Ok (metaAt E k target)
  /\ metaAt E k target ≠ JUndefined.
Proof.
  unfold metaAt. destruct (getMetadata E k target) as [v|e]; simpl; [|done].
  intros Hv. split; [done|]. by intros ->.
Qed.

Lemma elem_of_spec_classesWithMeta (E : Env) k l x :
  x ∈ spec_classesWithMeta E k l ->
  DiscoveredClassWithMeta.discoveredClass x ∈ l
  /\ DiscoveredClassWithMeta.meta x
     = classMeta E k (DiscoveredClassWithMeta.discoveredClass x)
  /\ ToBoolean (DiscoveredClassWithMeta.meta x) = true.
Proof.
  unfold spec_classesWithMeta.
  intros (c & -> & [Hc%Is_true_true Hin]%list_elem_of_filter)%list_elem_of_fmap.
  by simpl.
Qed.

(** ** Methods with metadata *)

Lemma fst_Ok {A} (m : M A) s a : (m s).1 = Ok a -> exists s', m s = (Ok a, s').
Proof. destruct (m s) as [r s']. simpl. intros ->. by exists s'. Qed.

(** Whatever the scan of a class returns has passed the [!!x.meta] test. *)
Lemma classMethodsWithMetaAtKey_truthy (E : Env) c k s r :
  (classMethodsWithMetaAtKey E c k s).1 = Ok r ->
  Forall (fun x => ToBoolean (DiscoveredMethodWithMeta.meta x) = true) r.
Proof.
  intros (s' & Hr)%fst_Ok. unfold classMethodsWithMetaAtKey in Hr.
  apply bind_Ok in Hr as (p & s1 & _ & Hr).
  apply bind_Ok in Hr as (scanned & s2 & _ & Hr).
  assert ((array_filter (fun x =>
             mret (JBool (ToBoolean (DiscoveredMethodWithMeta.meta x))))
             scanned s2).1 = Ok r) as Hf by (by rewrite Hr).
  apply array_filter_Ok in Hf as (g & Hg & ->); [|intros; apply readOnly_ret].
  apply Forall_forall. intros x [Hx%Is_true_true Hin]%list_elem_of_filter.
  rewrite Forall_forall in Hg. specialize (Hg x Hin).
  unfold returns in Hg. injection Hg as Hg. by rewrite <- Hg in Hx.
Qed.

Lemma methodEntry_reads (E : Env) k c n :
  isOk (getProp E (prototypeOf E c) n) = true ->
  isOk (getMetadata E k (handlerAt E c n)) = true ->
  getProp E (prototypeOf E c) n = Ok (handlerOf (methodEntry E k c n))
  /\ getMetadata E k (handlerOf (methodEntry E k c n))
     = Ok (DiscoveredMethodWithMeta.meta (methodEntry E k c n)).
Proof.
  intros Hh Hm. split.
  - apply (isOk_valueOr JUndefined), Hh.
  - apply (isOk_valueOr JUndefined), Hm.
Qed.

(** C6. [classMethodsWithMetaAtKey(component, k)] never returns an entry
    whose meta is falsy.  When the calls of the scan return, it makes one
    entry per scanned method name, with the handler read from the prototype
    under that name and the metadata read at [k] from that handler, and
    returns those of truthy meta, in scan order. *)
Theorem C6_class_methods_have_truthy_meta (E : Env) (c : DiscoveredClass.t)
    (k : MetaKey) (s : DiscoveryService) :
  (forall r, (classMethodsWithMetaAtKey E c k s).1 = Ok r ->
     Forall (fun x => ToBoolean (DiscoveredMethodWithMeta.meta x) = true) r)
  /\ (scanReturns E k c = true ->
      returns (classMethodsWithMetaAtKey E c k) s
        (filter (fun x => truthyMeta x) (methodEntry E k c <$> scannedNames E c))
      /\ length (methodEntry E k c <$> scannedNames E c)
         = length (scannedNames E c)
      /\ Forall (fun n =>
           let x := methodEntry E k c n in
           getProp E (prototypeOf E c) n = Ok (handlerOf x)
           /\ getMetadata E k (handlerOf x) = Ok (DiscoveredMethodWithMeta.meta x)
           /\ DiscoveredMethod.methodName
                (DiscoveredMethodWithMeta.discoveredMethod x) = n
           /\ DiscoveredMethod.parentClass
                (DiscoveredMethodWithMeta.discoveredMethod x) = c)
           (scannedNames E c)).
Proof.
  split; [intros r; apply classMethodsWithMetaAtKey_truthy|].
  intros Hscan. split_and!.
  - by apply returns_classMethodsWithMetaAtKey.
  - apply length_fmap.
  - unfold scanReturns in Hscan.
    apply andb_prop in Hscan as [_ Hms%forallb_Forall].
    eapply Forall_impl; [exact Hms|]. intros n [Hh Hm]%andb_prop. simpl.
    destruct (methodEntry_reads E k c n Hh Hm) as [? ?]. by split_and!.
Qed.

Lemma C6_class_methods_have_truthy_meta_witness :
  returns (classMethodsWithMetaAtKey Example.strictEnv Example.CatsController
             Example.ROLES) Example.service
          [ Example.method (JStr "owner") 101 "create" Example.CatsController ]
  /\ Forall (fun x => ToBoolean (DiscoveredMethodWithMeta.meta x) = true)
       [ Example.method (JStr "owner") 101 "create" Example.CatsController ].
Proof.
  destruct (C6_class_methods_have_truthy_meta Example.strictEnv
              Example.CatsController Example.ROLES Example.service)
    as [Htruthy Hscan].
  destruct (Hscan eq_refl) as (Hret & _). split; [exact Hret|].
  apply Htruthy. exact (f_equal fst Hret).
Defined.

(** C7. [providerMethodsWithMetaAtKey(k, filter)] returns the
    concatenation of what [classMethodsWithMetaAtKey(c, k)] returns over
    the providers [c] that [providers(filter)] selects, in the order of the
    discovered list; [controllerMethodsWithMetaAtKey] does the same over the
    controllers.  A filter left out selects every class. *)
Theorem C7_methods_are_concatenated (E : Env) (k : MetaKey)
    (providerFilter controllerFilter : option (Filter DiscoveredClass.t))
    (s : DiscoveryService) :
  let pf := default always providerFilter in
  let cf := default always controllerFilter in
  let ps := filter (fun x => passes pf x) (discoveredProviders s) in
  let cs := filter (fun x => passes cf x) (discoveredControllers s) in
  filterReturns pf (discoveredProviders s) = true ->
  forallb (scanReturns E k) ps = true ->
  filterReturns cf (discoveredControllers s) = true ->
  forallb (scanReturns E k) cs = true ->
  (returns (providers pf) s ps
   /\ concatOfClassMethods E k s ps (concat (spec_classMethods E k <$> ps))
   /\ returns (providerMethodsWithMetaAtKey E k providerFilter) s
        (concat (spec_classMethods E k <$> ps)))
  /\ (returns (controllers cf) s cs
      /\ concatOfClassMethods E k s cs (concat (spec_classMethods E k <$> cs))
      /\ returns (controllerMethodsWithMetaAtKey E k controllerFilter) s
           (concat (spec_classMethods E k <$> cs)))
  /\ returns (providers (default always None)) s (discoveredProviders s)
  /\ returns (controllers (default always None)) s (discoveredControllers s).
Proof.
  intros pf cf ps cs Hpf Hps Hcf Hcs.
  assert (forall sel, forallb (scanReturns E k) sel = true ->
            Forall2 (fun c l => returns (classMethodsWithMetaAtKey E c k) s l)
              sel (spec_classMethods E k <$> sel)) as Hscans.
  { intros sel H%forallb_Forall. induction H; simpl; constructor; [|done].
    by apply returns_classMethodsWithMetaAtKey. }
  split_and!.
  - by apply returns_providers.
  - eexists. split; [by apply Hscans|done].
  - eapply returns_bind; [by apply returns_providers|].
    apply returns_flatMap2. by apply Hscans.
  - by apply returns_controllers.
  - eexists. split; [by apply Hscans|done].
  - eapply returns_bind; [by apply returns_controllers|].
    apply returns_flatMap2. by apply Hscans.
  - apply returns_all_providers.
  - apply returns_all_controllers.
Qed.

Lemma C7_methods_are_concatenated_witness :
  (returns (providers always) Example.service
           [ Example.CatsService; Example.CONFIG ]
   /\ returns (providerMethodsWithMetaAtKey Example.strictEnv Example.ROLES
                 None) Example.service
        [ Example.method (JStr "worker") 400 "feed" Example.CatsService ])
  /\ (returns (controllers Example.notCats) Example.service
              [ Example.DogsController; Example.LegacyController ]
      /\ returns (controllerMethodsWithMetaAtKey Example.strictEnv
                    Example.ROLES (Some Example.notCats)) Example.service
           [ Example.method (JStr "user") 200 "bark" Example.DogsController ]).
Proof.
  destruct (C7_methods_are_concatenated Example.strictEnv Example.ROLES None
              (Some Example.notCats) Example.service)
    as ((Hps & _ & Hpm) & (Hcs & _ & Hcm) & _); [vm_compute; reflexivity ..|].
  split; split; [exact Hps | exact Hpm | exact Hcs | exact Hcm].
Defined.

(** ** The composite query *)

Lemma forallb_fmap {A B} (P : B -> bool) (g : A -> B) (l : list A) :
  forallb P (g <$> l) = forallb (fun x => P (g x)) l.
Proof.
  induction l as [|x l IH]; [done|].
  rewrite fmap_cons. simpl. by rewrite IH.
Qed.

Section Composite.
Variable E : Env.
Implicit Types (s : DiscoveryService) (k : MetaKey) (f : Filter JsValue).

Lemma returns_controllersWithMeta k f s :
  storeReturns E k (discoveredControllers s) = true ->
  filterReturns f (DiscoveredClassWithMeta.meta
                     <$> spec_classesWithMeta E k (discoveredControllers s))
  = true ->
  returns (controllersWithMeta E k f) s
          (spec_taggedControllers E k f (discoveredControllers s)).
Proof.
  intros Hstore Hf. eapply returns_bind.
  - by apply returns_controllersWithMetaAtKey.
  - unfold filterReturns in Hf. rewrite forallb_fmap in Hf.
    apply (returns_filter_call
             (fun x => f (DiscoveredClassWithMeta.meta x)) _ s Hf).
Qed.

Lemma returns_methodsFromDecoratedControllers
    (sel : list DiscoveredClassWithMeta.t) s :
  forallb (scanReturns E (PATH_METADATA E))
    (DiscoveredClassWithMeta.discoveredClass <$> sel) = true ->
  returns (methodsFromDecoratedControllers E sel) s
    (x ← sel;
     spec_classMethods E (PATH_METADATA E)
       (DiscoveredClassWithMeta.discoveredClass x)).
Proof.
  rewrite forallb_fmap. intros H%forallb_Forall.
  apply returns_flatMap. eapply Forall_impl; [exact H|].
  intros x Hx. by apply returns_classMethodsWithMetaAtKey.
Qed.

Lemma returns_all_controllerMethods k s :
  forallb (scanReturns E k) (discoveredControllers s) = true ->
  returns (controllerMethodsWithMetaAtKey E k None) s
          (c ← discoveredControllers s; spec_classMethods E k c).
Proof.
  intros H. eapply returns_bind; [apply returns_all_controllers|].
  by apply returns_scans.
Qed.

Lemma returns_decoratedMethods k f s :
  forallb (scanReturns E k) (discoveredControllers s) = true ->
  filterReturns f (DiscoveredMethodWithMeta.meta
                     <$> (c ← discoveredControllers s; spec_classMethods E k c))
  = true ->
  returns (decoratedMethods E k f) s
          (spec_directMethods E k f (discoveredControllers s)).
Proof.
  intros Hscan Hf. eapply returns_bind.
  - by apply returns_all_controllerMethods.
  - unfold filterReturns in Hf. rewrite forallb_fmap in Hf.
    apply (returns_filter_call
             (fun x => f (DiscoveredMethodWithMeta.meta x)) _ s Hf).
Qed.

End Composite.

(** C1, as the code has it.  When the calls it makes return,
    [methodsAndControllerMethodsWithMetaAtKey(k, metaFilter)] returns the
    composition of the specification: (1) the controllers with a truthy
    value at [k] on their type whose value passes [metaFilter]; (2) for
    each, in order, its methods with a truthy value at the route-path key;
    (3) the methods of all controllers with a truthy value at [k] whose
    value passes [metaFilter]; (4) list 2 followed by list 3, one entry per
    handler.  A filter left out passes everything. *)
Theorem C1_composite_query (E : Env) (k : MetaKey)
    (metaFilter : option (Filter JsValue)) (s : DiscoveryService) :
  compositeReturns E k (default always metaFilter) (discoveredControllers s)
  = true ->
  returns (methodsAndControllerMethodsWithMetaAtKey E k metaFilter) s
    (spec_methodsAndControllerMethods E k (default always metaFilter)
       (discoveredControllers s)).
Proof.
  unfold compositeReturns.
  intros [[[[H1 H2]%andb_prop H3]%andb_prop H4]%andb_prop H5]%andb_prop.
  unfold methodsAndControllerMethodsWithMetaAtKey.
  eapply returns_bind; [by apply returns_controllersWithMeta|].
  eapply returns_bind; [by apply returns_methodsFromDecoratedControllers|].
  eapply returns_bind; [by apply returns_decoratedMethods|].
  done.
Qed.

Lemma C1_composite_query_witness :
  returns (methodsAndControllerMethodsWithMetaAtKey Example.strictEnv
             Example.ROLES (Some Example.notUser)) Example.service
    [ Example.method (JStr "cats") 100 "list" Example.CatsController;
      Example.method (JStr "cats/new") 101 "create" Example.CatsController ]
  /\ returns (methodsAndControllerMethodsWithMetaAtKey Example.strictEnv
                Example.ROLES None) Example.service
    [ Example.method (JStr "cats") 100 "list" Example.CatsController;
      Example.method (JStr "cats/new") 101 "create" Example.CatsController;
      Example.method (JStr "user") 200 "bark" Example.DogsController ].
Proof.
  split.
  - apply (C1_composite_query Example.strictEnv Example.ROLES
             (Some Example.notUser) Example.service).
    vm_compute; reflexivity.
  - apply (C1_composite_query Example.strictEnv Example.ROLES None
             Example.service).
    vm_compute; reflexivity.
Defined.

(** C2. Whatever [methodsAndControllerMethodsWithMetaAtKey] returns has no
    two entries with the same handler.  It is what is left of the
    class-inherited matches followed by the directly tagged ones when, of the
    entries with one handler, only the first is kept: the order is kept, no
    handler is lost, and an entry that is kept has no entry with its handler
    before it. *)
Theorem C2_no_two_entries_share_a_handler (E : Env) (k : MetaKey)
    (metaFilter : option (Filter JsValue)) (s : DiscoveryService)
    (r : list DiscoveredMethodWithMeta.t) :
  (methodsAndControllerMethodsWithMetaAtKey E k metaFilter s).1 = Ok r ->
  NoDup (handlerOf <$> r)
  /\ exists cs inherited direct,
       returns (controllersWithMeta E k (default always metaFilter)) s cs
       /\ returns (methodsFromDecoratedControllers E cs) s inherited
       /\ returns (decoratedMethods E k (default always metaFilter)) s direct
       /\ r `sublist_of` (inherited ++ direct)
       /\ (forall x, x ∈ inherited ++ direct ->
             handlerOf x ∈ handlerOf <$> r)
       /\ (forall y, y ∈ r ->
             exists pre post,
               inherited ++ direct = pre ++ y :: post
               /\ handlerOf y ∉ handlerOf <$> pre).
Proof.
  intros (s' & Hr)%fst_Ok.
  unfold methodsAndControllerMethodsWithMetaAtKey in Hr.
  apply bind_Ok in Hr as (cs & s1 & Hcs & Hr).
  pose proof (readOnly_controllersWithMeta E k (default always metaFilter) s)
    as Hs1.
  rewrite Hcs in Hs1. simpl in Hs1. subst s1.
  apply bind_Ok in Hr as (inherited & s2 & Hin & Hr).
  pose proof (readOnly_methodsFromDecoratedControllers E cs s) as Hs2.
  rewrite Hin in Hs2. simpl in Hs2. subst s2.
  apply bind_Ok in Hr as (direct & s3 & Hdi & Hr).
  pose proof (readOnly_decoratedMethods E k (default always metaFilter) s)
    as Hs3.
  rewrite Hdi in Hs3. simpl in Hs3. subst s3.
  injection Hr as <- _.
  split; [apply uniqBy_NoDup|].
  exists cs, inherited, direct. split_and!; try done.
  - apply uniqBy_sublist.
  - apply uniqBy_cover.
  - apply uniqBy_first.
Qed.

Lemma C2_no_two_entries_share_a_handler_witness :
  NoDup (handlerOf <$>
    [ Example.method (JStr "cats") 100 "list" Example.CatsController;
      Example.method (JStr "cats/new") 101 "create" Example.CatsController;
      Example.method (JStr "user") 200 "bark" Example.DogsController ]).
Proof.
  apply (C2_no_two_entries_share_a_handler Example.strictEnv Example.ROLES None
           Example.service).
  reflexivity.
Defined.

(** ** A filter that throws *)

(** A filter throws as soon as its callback does. *)
Lemma array_filter_throws {A} (cb : A -> M JsValue) (l : list A) s x e :
  (forall y, readOnly (cb y)) ->
  x ∈ l -> cb x s = (Throw e, s) ->
  exists e', array_filter cb l s = (Throw e', s).
Proof.
  intros Hro Hin Hx. induction l as [|y l IH]; [by apply elem_of_nil in Hin|].
  simpl. rewrite bind_unfold.
  pose proof (Hro y s) as Hs.
  destruct (cb y s) as [[v|e1] s1] eqn:Hy; simpl in Hs; subst s1;
    [|by exists e1].
  apply elem_of_cons in Hin as [->|Hin]; [congruence|].
  destruct (IH Hin) as [e' He']. exists e'.
  by rewrite bind_unfold, He'.
Qed.

(** ** The scenarios of the specification, on the example application *)

(** A method that is both a class-inherited and a directly tagged match is
    returned once: [create] of the cats controller. *)
Example scenario_shared_handler_once :
  (methodsAndControllerMethodsWithMetaAtKey Example.strictEnv Example.ROLES
     None Example.service).1
  = Ok [ Example.method (JStr "cats") 100 "list" Example.CatsController;
         Example.method (JStr "cats/new") 101 "create" Example.CatsController;
         Example.method (JStr "user") 200 "bark" Example.DogsController ].
Proof. reflexivity. Qed.

(** Methods tagged directly, one entry per method. *)
Example scenario_direct_methods :
  (controllerMethodsWithMetaAtKey Example.strictEnv Example.ROLES None
     Example.service).1
  = Ok [ Example.method (JStr "owner") 101 "create" Example.CatsController;
         Example.method (JStr "user") 200 "bark" Example.DogsController ].
Proof. reflexivity. Qed.

(** An empty container: every query returns the empty list. *)
Example scenario_empty_container (E : Env) (k : MetaKey) :
  let s := construct [] in
  returns (controllers always) s []
  /\ returns (providers always) s []
  /\ returns (controllersWithMetaAtKey E k) s []
  /\ returns (providersWithMetaAtKey E k) s []
  /\ returns (controllerMethodsWithMetaAtKey E k None) s []
  /\ returns (providerMethodsWithMetaAtKey E k None) s []
  /\ returns (methodsAndControllerMethodsWithMetaAtKey E k None) s [].
Proof. by split_and!. Qed.

(** * Beyond the specification *)

(** ** When an array method returns *)

Section Throws.
Context {A B : Type}.
Implicit Types (s : DiscoveryService).

Lemma isOk_bind_returns (m : M A) (f : A -> M B) s a :
  returns m s a -> isOk ((m ≫= f) s).1 = isOk (f a s).1.
Proof. unfold returns. intros Hm. by rewrite bind_unfold, Hm. Qed.

Lemma isOk_bind_throws (m : M A) (f : A -> M B) s :
  isOk (m s).1 = false -> isOk ((m ≫= f) s).1 = false.
Proof. rewrite bind_unfold. by destruct (m s) as [[a|e] s1]. Qed.

(** A filter returns when its callback returns on every element. *)
Lemma array_filter_isOk (cb : A -> M JsValue) (l : list A) s :
  (forall y, readOnly (cb y)) ->
  isOk (array_filter cb l s).1 = forallb (fun y => isOk (cb y s).1) l.
Proof.
  intros Hro. induction l as [|y l IH]; [done|].
  simpl. rewrite bind_unfold. pose proof (Hro y s) as Hs.
  destruct (cb y s) as [[v|e] s1]; simpl in *; subst; [|done].
  rewrite bind_unfold, <- IH.
  by destruct (array_filter cb l s) as [[r|e] s2].
Qed.

Lemma array_map_isOk (cb : A -> M B) (l : list A) s :
  (forall y, readOnly (cb y)) ->
  isOk (array_map cb l s).1 = forallb (fun y => isOk (cb y s).1) l.
Proof.
  intros Hro. unfold array_map. induction l as [|y l IH]; [done|].
  simpl. rewrite bind_unfold. pose proof (Hro y s) as Hs.
  destruct (cb y s) as [[v|e] s1]; simpl in *; subst; [|done].
  rewrite bind_unfold, <- IH.
  by destruct (mapM cb l s) as [[r|e] s2].
Qed.

(** What a filter throws is what its callback throws first. *)
Lemma array_filter_first_throw (cb : A -> M JsValue) pre x post s e :
  Forall (fun y => exists v, returns (cb y) s v) pre ->
  cb x s = (Throw e, s) ->
  array_filter cb (pre ++ x :: post) s = (Throw e, s).
Proof.
  intros Hpre Hx. induction Hpre as [|y pre [v Hy] _ IH]; simpl.
  - by rewrite bind_unfold, Hx.
  - rewrite bind_unfold, Hy. by rewrite bind_unfold, IH.
Qed.

End Throws.

Lemma forallb_ext_in {A} (P Q : A -> bool) (l : list A) :
  (forall x, x ∈ l -> P x = Q x) -> forallb P l = forallb Q l.
Proof.
  induction l as [|x l IH]; [done|]. intros H. simpl.
  rewrite (H x) by (by left). rewrite IH; [done|].
  intros y Hy. apply H. by right.
Qed.

Lemma filter_call_first_throw {A} (f : Filter A) pre x post s e :
  filterReturns f pre = true -> f x = Throw e ->
  array_filter (fun y => call (f y)) (pre ++ x :: post) s = (Throw e, s).
Proof.
  intros Hpre%forallb_Forall Hx. apply array_filter_first_throw.
  - eapply Forall_impl; [exact Hpre|]. intros y Hy. simpl in Hy.
    exists (valueOr JUndefined (f y)). by apply returns_call, isOk_valueOr.
  - unfold call. by rewrite Hx.
Qed.

Lemma filter_call_isOk {A} (f : Filter A) (l : list A) s :
  isOk (array_filter (fun y => call (f y)) l s).1 = filterReturns f l.
Proof. apply array_filter_isOk. intros y. apply readOnly_call. Qed.

(** X1. [providers(filter)] and [controllers(filter)] return exactly when
    the filter returns on every class of the list; nothing is caught and
    nothing is skipped. *)
Theorem X1_filter_queries_return_iff_filter_does
    (f : Filter DiscoveredClass.t) (s : DiscoveryService) :
  isOk (providers f s).1 = filterReturns f (discoveredProviders s)
  /\ isOk (controllers f s).1 = filterReturns f (discoveredControllers s).
Proof.
  split.
  - unfold providers.
    rewrite (isOk_bind_returns _ _ s _ (returns_this discoveredProviders s)).
    apply filter_call_isOk.
  - unfold controllers.
    rewrite (isOk_bind_returns _ _ s _ (returns_this discoveredControllers s)).
    apply filter_call_isOk.
Qed.

(** X2. When the filter returns on the classes before [x] and throws [e]
    on [x], [providers(filter)] (and [controllers(filter)]) throws that
    same [e], and the service object is as it was. *)
Theorem X2_filter_queries_throw_the_first_error
    (f : Filter DiscoveredClass.t) (s : DiscoveryService)
    (pre post : list DiscoveredClass.t) (x : DiscoveredClass.t) (e : JsError) :
  filterReturns f pre = true ->
  f x = Throw e ->
  (discoveredProviders s = pre ++ x :: post ->
   providers f s = (Throw e, s))
  /\ (discoveredControllers s = pre ++ x :: post ->
      controllers f s = (Throw e, s)).
Proof.
  intros Hpre Hx. split; intros Hl.
  - unfold providers. rewrite bind_unfold. unfold this at 1. rewrite Hl.
    by apply filter_call_first_throw.
  - unfold controllers. rewrite bind_unfold. unfold this at 1. rewrite Hl.
    by apply filter_call_first_throw.
Qed.

Lemma X2_filter_queries_throw_the_first_error_witness :
  providers (withMetaAtKey Example.strictEnv Example.ROLES) Example.service
  = (Throw TypeError, Example.service)
  /\ controllers Cases.failsOnDogs Example.service
     = (Throw (Thrown (JStr "boom")), Example.service).
Proof.
  split.
  - apply (X2_filter_queries_throw_the_first_error
             (withMetaAtKey Example.strictEnv Example.ROLES) Example.service
             [Example.CatsService] [] Example.CONFIG TypeError);
      reflexivity.
  - apply (X2_filter_queries_throw_the_first_error
             Cases.failsOnDogs Example.service
             [Example.CatsController] [Example.LegacyController]
             Example.DogsController (Thrown (JStr "boom")));
      reflexivity.
Defined.

(** ** When the queries return *)

Section ReturnsIff.
Variable E : Env.
Implicit Types (s : DiscoveryService) (k : MetaKey) (c : DiscoveredClass.t).

Lemma extractMethodMetaAtKey_isOk k c n s :
  isOk (extractMethodMetaAtKey E k c (prototypeOf E c) n s).1
  = isOk (getProp E (prototypeOf E c) n)
    && isOk (getMetadata E k (handlerAt E c n)).
Proof.
  unfold extractMethodMetaAtKey, handlerAt. rewrite bind_unfold. unfold call at 1.
  destruct (getProp E (prototypeOf E c) n) as [h|e]; [|done].
  rewrite bind_unfold. unfold call at 1. simpl.
  by destruct (getMetadata E k h).
Qed.

Lemma classMethodsWithMetaAtKey_isOk c k s :
  isOk (classMethodsWithMetaAtKey E c k s).1 = scanReturns E k c.
Proof.
  destruct (scanReturns E k c) eqn:Hscan.
  { by rewrite (returns_classMethodsWithMetaAtKey E c k s Hscan). }
  unfold classMethodsWithMetaAtKey.
  unfold scanReturns, scannedNames in Hscan.
  pose proof (fun n => extractMethodMetaAtKey_isOk k c n s) as Hx.
  unfold handlerAt in *. unfold prototypeOf in *.
  rewrite bind_unfold. unfold call at 1.
  destruct (getPrototypeOf E (DiscoveredClass.instance c)) as [p|e]; [|done].
  simpl in Hscan, Hx. apply isOk_bind_throws.
  unfold scanFromPrototype. rewrite bind_unfold. unfold call at 1.
  destruct (methodNames E (DiscoveredClass.instance c) p) as [names|e];
    [|done].
  simpl in Hscan.
  rewrite array_map_isOk by (intros; apply readOnly_extractMethodMetaAtKey).
  rewrite <- Hscan. apply forallb_ext_in. intros n _. apply Hx.
Qed.

Lemma pairing_isOk k (l : list DiscoveredClass.t) s :
  isOk (array_map (fun x =>
          meta ← call (getMetadata E k (DiscoveredClass.classType x));
          mret {| DiscoveredClassWithMeta.meta := meta;
                  DiscoveredClassWithMeta.discoveredClass := x |}) l s).1
  = storeReturns E k l.
Proof.
  rewrite array_map_isOk by (intros; read_only).
  apply forallb_ext_in. intros x _. rewrite bind_unfold. unfold call at 1.
  by destruct (getMetadata E k (DiscoveredClass.classType x)).
Qed.

Lemma classesWithMeta_isOk k (l : list DiscoveredClass.t) s :
  isOk ((array_filter (fun x => call (withMetaAtKey E k x)) l ≫=
         array_map (fun x =>
           meta ← call (getMetadata E k (DiscoveredClass.classType x));
           mret {| DiscoveredClassWithMeta.meta := meta;
                   DiscoveredClassWithMeta.discoveredClass := x |})) s).1
  = storeReturns E k l.
Proof.
  destruct (storeReturns E k l) eqn:Hstore.
  - rewrite (isOk_bind_returns _ _ s _
               (returns_filter_call (withMetaAtKey E k) l s Hstore)).
    rewrite pairing_isOk. by apply storeReturns_filter.
  - apply isOk_bind_throws. by rewrite filter_call_isOk.
Qed.

Lemma scans_isOk k (l : list DiscoveredClass.t) s :
  isOk (flatMap l (fun c => classMethodsWithMetaAtKey E c k) s).1
  = forallb (scanReturns E k) l.
Proof.
  destruct (forallb (scanReturns E k) l) eqn:Hscan.
  - by rewrite (returns_scans E k l s Hscan).
  - apply isOk_bind_throws.
    rewrite array_map_isOk
      by (intros; apply readOnly_classMethodsWithMetaAtKey).
    rewrite <- Hscan. apply forallb_ext_in. intros c _.
    apply classMethodsWithMetaAtKey_isOk.
Qed.

Lemma filtered_scans_isOk k (f : Filter DiscoveredClass.t)
    (l : list DiscoveredClass.t) s :
  isOk ((array_filter (fun x => call (f x)) l ≫= fun sel =>
         flatMap sel (fun c => classMethodsWithMetaAtKey E c k)) s).1
  = methodQueryReturns E k f l.
Proof.
  unfold methodQueryReturns. destruct (filterReturns f l) eqn:Hf; simpl.
  - rewrite (isOk_bind_returns _ _ s _ (returns_filter_call f l s Hf)).
    apply scans_isOk.
  - apply isOk_bind_throws. by rewrite filter_call_isOk.
Qed.

Lemma returns_filtered_scans k (f : Filter DiscoveredClass.t)
    (l : list DiscoveredClass.t) s :
  methodQueryReturns E k f l = true ->
  returns (array_filter (fun x => call (f x)) l ≫= fun sel =>
           flatMap sel (fun c => classMethodsWithMetaAtKey E c k)) s
          (c ← filter (fun x => passes f x) l; spec_classMethods E k c).
Proof.
  unfold methodQueryReturns. intros [Hf Hscan]%andb_prop.
  eapply returns_bind; [by apply returns_filter_call|].
  by apply returns_scans.
Qed.

Lemma controllersWithMetaAtKey_isOk k s :
  isOk (controllersWithMetaAtKey E k s).1
  = storeReturns E k (discoveredControllers s).
Proof.
  unfold controllersWithMetaAtKey, controllers.
  pose proof (classesWithMeta_isOk k (discoveredControllers s) s) as H.
  rewrite !bind_unfold in *. by unfold this at 1.
Qed.

Lemma providersWithMetaAtKey_isOk k s :
  isOk (providersWithMetaAtKey E k s).1
  = storeReturns E k (discoveredProviders s).
Proof.
  unfold providersWithMetaAtKey, providers.
  pose proof (classesWithMeta_isOk k (discoveredProviders s) s) as H.
  rewrite !bind_unfold in *. by unfold this at 1.
Qed.

Lemma providerMethodsWithMetaAtKey_isOk k flt s :
  isOk (providerMethodsWithMetaAtKey E k flt s).1
  = methodQueryReturns E k (default always flt) (discoveredProviders s).
Proof.
  unfold providerMethodsWithMetaAtKey, providers.
  pose proof (filtered_scans_isOk k (default always flt)
                (discoveredProviders s) s) as H.
  rewrite !bind_unfold in *. by unfold this at 1.
Qed.

Lemma controllerMethodsWithMetaAtKey_isOk k flt s :
  isOk (controllerMethodsWithMetaAtKey E k flt s).1
  = methodQueryReturns E k (default always flt) (discoveredControllers s).
Proof.
  unfold controllerMethodsWithMetaAtKey, controllers.
  pose proof (filtered_scans_isOk k (default always flt)
                (discoveredControllers s) s) as H.
  rewrite !bind_unfold in *. by unfold this at 1.
Qed.

Lemma returns_providerMethodsWithMetaAtKey k flt s :
  methodQueryReturns E k (default always flt) (discoveredProviders s)
  = true ->
  returns (providerMethodsWithMetaAtKey E k flt) s
    (c ← filter (fun x => passes (default always flt) x)
           (discoveredProviders s);
     spec_classMethods E k c).
Proof.
  unfold methodQueryReturns. intros [Hf Hscan]%andb_prop.
  eapply returns_bind; [by apply returns_providers|].
  by apply returns_scans.
Qed.

Lemma returns_controllerMethodsWithMetaAtKey k flt s :
  methodQueryReturns E k (default always flt) (discoveredControllers s)
  = true ->
  returns (controllerMethodsWithMetaAtKey E k flt) s
    (c ← filter (fun x => passes (default always flt) x)
           (discoveredControllers s);
     spec_classMethods E k c).
Proof.
  unfold methodQueryReturns. intros [Hf Hscan]%andb_prop.
  eapply returns_bind; [by apply returns_controllers|].
  by apply returns_scans.
Qed.

End ReturnsIff.

(** X3. [classMethodsWithMetaAtKey(component, k)] returns exactly when
    [Object.getPrototypeOf(instance)] returns, the scanner returns, and for
    every scanned name the read of the handler and the read of its metadata
    return; an instance that has no prototype to give makes it throw. *)
Theorem X3_class_scan_returns_iff_its_calls_do (E : Env)
    (c : DiscoveredClass.t) (k : MetaKey) (s : DiscoveryService) :
  isOk (classMethodsWithMetaAtKey E c k s).1 = scanReturns E k c
  /\ forall e, getPrototypeOf E (DiscoveredClass.instance c) = Throw e ->
       classMethodsWithMetaAtKey E c k s = (Throw e, s).
Proof.
  split; [apply classMethodsWithMetaAtKey_isOk|].
  intros e He. unfold classMethodsWithMetaAtKey.
  rewrite bind_unfold. unfold call at 1. by rewrite He.
Qed.

Lemma X3_class_scan_returns_iff_its_calls_do_witness :
  classMethodsWithMetaAtKey Example.strictEnv Cases.Broken Example.ROLES
    Cases.withBroken
  = (Throw TypeError, Cases.withBroken).
Proof.
  apply (X3_class_scan_returns_iff_its_calls_do Example.strictEnv Cases.Broken
           Example.ROLES Cases.withBroken).
  reflexivity.
Defined.

(** X4. [controllersWithMetaAtKey(k)] and [providersWithMetaAtKey(k)]
    return exactly when the store answers at [k] for the type of every
    class of the list, the ones the filter would drop included. *)
Theorem X4_class_queries_return_iff_store_does (E : Env) (k : MetaKey)
    (s : DiscoveryService) :
  isOk (controllersWithMetaAtKey E k s).1
  = storeReturns E k (discoveredControllers s)
  /\ isOk (providersWithMetaAtKey E k s).1
     = storeReturns E k (discoveredProviders s).
Proof.
  split.
  - apply controllersWithMetaAtKey_isOk.
  - apply providersWithMetaAtKey_isOk.
Qed.

(** X5. [providerMethodsWithMetaAtKey(k, filter)] and
    [controllerMethodsWithMetaAtKey(k, filter)] return exactly when the
    filter returns on every class of the list and the scan returns on every
    class the filter keeps: a class the filter drops is not scanned, and one
    kept class whose scan throws makes the whole query throw. *)
Theorem X5_method_queries_return_iff_their_calls_do (E : Env) (k : MetaKey)
    (filter : option (Filter DiscoveredClass.t)) (s : DiscoveryService) :
  isOk (providerMethodsWithMetaAtKey E k filter s).1
  = methodQueryReturns E k (default always filter) (discoveredProviders s)
  /\ isOk (controllerMethodsWithMetaAtKey E k filter s).1
     = methodQueryReturns E k (default always filter) (discoveredControllers s).
Proof.
  split.
  - apply providerMethodsWithMetaAtKey_isOk.
  - apply controllerMethodsWithMetaAtKey_isOk.
Qed.

(** ** What the results are made of *)

Lemma Ok_returns {A} (m : M A) s a b :
  returns m s a -> (m s).1 = Ok b -> b = a.
Proof. unfold returns. intros -> Hb. simpl in Hb. congruence. Qed.

Lemma fmap_discoveredClass_spec (E : Env) k (l : list DiscoveredClass.t) :
  DiscoveredClassWithMeta.discoveredClass <$> spec_classesWithMeta E k l
  = filter (fun c => passes (withMetaAtKey E k) c) l.
Proof.
  unfold spec_classesWithMeta. rewrite <- list_fmap_compose.
  change (filter (fun c => passes (withMetaAtKey E k) c) l)
    with (filter (fun c => ToBoolean (classMeta E k c)) l).
  induction (filter _ l) as [|c l' IH]; [done|].
  rewrite fmap_cons. by f_equal.
Qed.

Lemma withMetaAtKey_drops_meta (E : Env) k (l : list DiscoveredClass.t)
    (r : list DiscoveredClassWithMeta.t) s :
  storeReturns E k l = true ->
  r = spec_classesWithMeta E k l ->
  returns (array_filter (fun x => call (withMetaAtKey E k x)) l) s
          (DiscoveredClassWithMeta.discoveredClass <$> r)
  /\ (DiscoveredClassWithMeta.discoveredClass <$> r) `sublist_of` l
  /\ length r <= length l.
Proof.
  intros Hstore ->. rewrite fmap_discoveredClass_spec. split_and!.
  - by apply returns_filter_call.
  - apply sublist_filter.
  - unfold spec_classesWithMeta. rewrite length_fmap. apply length_filter.
Qed.

(** X6. Whatever [controllersWithMetaAtKey(k)] returns, its classes are
    what [controllers(withMetaAtKey(k))] returns: a sublist of the
    discovered controllers, so no class comes twice that was there once and
    the result is no longer than the list.  Likewise for the providers. *)
Theorem X6_classes_with_meta_are_the_filtered_classes (E : Env) (k : MetaKey)
    (s : DiscoveryService) :
  (forall r, (controllersWithMetaAtKey E k s).1 = Ok r ->
     returns (controllers (withMetaAtKey E k)) s
             (DiscoveredClassWithMeta.discoveredClass <$> r)
     /\ (DiscoveredClassWithMeta.discoveredClass <$> r)
          `sublist_of` discoveredControllers s
     /\ length r <= length (discoveredControllers s))
  /\ (forall r, (providersWithMetaAtKey E k s).1 = Ok r ->
     returns (providers (withMetaAtKey E k)) s
             (DiscoveredClassWithMeta.discoveredClass <$> r)
     /\ (DiscoveredClassWithMeta.discoveredClass <$> r)
          `sublist_of` discoveredProviders s
     /\ length r <= length (discoveredProviders s)).
Proof.
  split; intros r Hr.
  - assert (storeReturns E k (discoveredControllers s) = true) as Hstore.
    { rewrite <- controllersWithMetaAtKey_isOk. by rewrite Hr. }
    pose proof (Ok_returns _ _ _ _
                  (returns_controllersWithMetaAtKey E k s Hstore) Hr) as Heq.
    destruct (withMetaAtKey_drops_meta E k _ r s Hstore Heq) as (H1 & H2 & H3).
    split_and!; [|done|done].
    eapply returns_bind; [apply returns_this|exact H1].
  - assert (storeReturns E k (discoveredProviders s) = true) as Hstore.
    { rewrite <- providersWithMetaAtKey_isOk. by rewrite Hr. }
    pose proof (Ok_returns _ _ _ _
                  (returns_providersWithMetaAtKey E k s Hstore) Hr) as Heq.
    destruct (withMetaAtKey_drops_meta E k _ r s Hstore Heq) as (H1 & H2 & H3).
    split_and!; [|done|done].
    eapply returns_bind; [apply returns_this|exact H1].
Qed.

Lemma X6_classes_with_meta_are_the_filtered_classes_witness :
  returns (controllers (withMetaAtKey Example.strictEnv Example.ROLES))
          Example.service [ Example.CatsController ].
Proof.
  destruct (X6_classes_with_meta_are_the_filtered_classes Example.strictEnv
              Example.ROLES Example.service) as [Hc _].
  destruct (Hc [ DiscoveredClassWithMeta.mk (JStr "admin")
                   Example.CatsController ] eq_refl) as [Hret _].
  exact Hret.
Defined.

Lemma elem_of_spec_classMethods (E : Env) k c x :
  scanReturns E k c = true ->
  x ∈ spec_classMethods E k c ->
  parentOf x = c /\ scannedEntry E k x.
Proof.
  unfold scanReturns, spec_classMethods.
  intros [_ Hms%forallb_Forall]%andb_prop
         [Ht%Is_true_true (n & -> & Hn)%list_elem_of_fmap]%list_elem_of_filter.
  rewrite Forall_forall in Hms.
  destruct (andb_prop _ _ (Hms n Hn)) as [Hh Hm].
  destruct (methodEntry_reads E k c n Hh Hm) as [Hprop Hmeta].
  split; [done|]. by split_and!.
Qed.

Lemma parentOf_spec_classMethods (E : Env) k c x :
  x ∈ spec_classMethods E k c -> parentOf x = c.
Proof.
  unfold spec_classMethods.
  by intros [_ (n & -> & _)%list_elem_of_fmap]%list_elem_of_filter.
Qed.

Lemma method_query_entries (E : Env) k (f : Filter DiscoveredClass.t)
    (l : list DiscoveredClass.t) x :
  methodQueryReturns E k f l = true ->
  x ∈ (c ← filter (fun c => passes f c) l; spec_classMethods E k c) ->
  parentOf x ∈ l /\ passes f (parentOf x) = true /\ scannedEntry E k x.
Proof.
  unfold methodQueryReturns.
  intros [_ Hscan%forallb_Forall]%andb_prop (c & Hx & Hc)%list_elem_of_bind.
  rewrite Forall_forall in Hscan.
  destruct (elem_of_spec_classMethods E k c x (Hscan c Hc) Hx) as [-> Hentry].
  apply list_elem_of_filter in Hc as [Hp%Is_true_true Hin]. by split_and!.
Qed.

(** X7. Every entry that [providerMethodsWithMetaAtKey(k, filter)] returns
    belongs to a discovered provider that passes the filter; its handler is
    what the prototype of that provider has under the method name, and its
    meta is the truthy value the store has at [k] for that handler.
    Likewise for [controllerMethodsWithMetaAtKey] and the controllers. *)
Theorem X7_method_query_entries (E : Env) (k : MetaKey)
    (flt : option (Filter DiscoveredClass.t)) (s : DiscoveryService) :
  (forall r, (providerMethodsWithMetaAtKey E k flt s).1 = Ok r ->
     Forall (fun x =>
       parentOf x ∈ discoveredProviders s
       /\ passes (default always flt) (parentOf x) = true
       /\ scannedEntry E k x) r)
  /\ (forall r, (controllerMethodsWithMetaAtKey E k flt s).1 = Ok r ->
     Forall (fun x =>
       parentOf x ∈ discoveredControllers s
       /\ passes (default always flt) (parentOf x) = true
       /\ scannedEntry E k x) r).
Proof.
  split; intros r Hr.
  - assert (methodQueryReturns E k (default always flt)
              (discoveredProviders s) = true) as Hq.
    { rewrite <- providerMethodsWithMetaAtKey_isOk. by rewrite Hr. }
    rewrite (Ok_returns _ _ _ _
               (returns_providerMethodsWithMetaAtKey E k flt s Hq) Hr).
    apply Forall_forall. intros x Hx. by eapply method_query_entries.
  - assert (methodQueryReturns E k (default always flt)
              (discoveredControllers s) = true) as Hq.
    { rewrite <- controllerMethodsWithMetaAtKey_isOk. by rewrite Hr. }
    rewrite (Ok_returns _ _ _ _
               (returns_controllerMethodsWithMetaAtKey E k flt s Hq) Hr).
    apply Forall_forall. intros x Hx. by eapply method_query_entries.
Qed.

Lemma X7_method_query_entries_witness :
  Forall (fun x =>
    parentOf x ∈ discoveredControllers Example.service
    /\ passes Example.notCats (parentOf x) = true
    /\ scannedEntry Example.strictEnv Example.ROLES x)
    [ Example.method (JStr "user") 200 "bark" Example.DogsController ].
Proof.
  destruct (X7_method_query_entries Example.strictEnv Example.ROLES
              (Some Example.notCats) Example.service) as [_ Hc].
  apply Hc. reflexivity.
Defined.

(** ** Filtering the classes and filtering the methods *)

Lemma filter_all {A} (P : A -> Prop) `{forall x, Decision (P x)} (l : list A) :
  Forall P l -> filter P l = l.
Proof.
  induction 1 as [|x l Hx _ IH]; [done|].
  by rewrite filter_cons_True, IH.
Qed.

Lemma filter_none {A} (P : A -> Prop) `{forall x, Decision (P x)} (l : list A) :
  Forall (fun x => ~ P x) l -> filter P l = [].
Proof.
  induction 1 as [|x l Hx _ IH]; [done|].
  by rewrite filter_cons_False, IH.
Qed.

Lemma forallb_filter {A} (P : A -> bool) (Q : A -> Prop)
    `{forall x, Decision (Q x)} (l : list A) :
  forallb P l = true -> forallb P (filter Q l) = true.
Proof.
  induction l as [|x l IH]; [done|]. simpl.
  intros [Hx Hl]%andb_prop. rewrite filter_cons.
  destruct (decide (Q x)); simpl; [rewrite Hx; simpl|]; auto.
Qed.

Lemma filter_parent_bind (E : Env) k (p : DiscoveredClass.t -> bool)
    (l : list DiscoveredClass.t) :
  filter (fun x => p (parentOf x)) (c ← l; spec_classMethods E k c)
  = (c ← filter (fun c => p c) l; spec_classMethods E k c).
Proof.
  induction l as [|c l IH]; [done|].
  rewrite bind_cons, filter_app, IH, filter_cons.
  destruct (decide (p c)) as [Hp|Hp].
  - rewrite bind_cons. f_equal. apply filter_all, Forall_forall.
    intros x Hx. by rewrite (parentOf_spec_classMethods E k c x Hx).
  - rewrite filter_none; [done|]. apply Forall_forall.
    intros x Hx. by rewrite (parentOf_spec_classMethods E k c x Hx).
Qed.

Lemma methodQueryReturns_always (E : Env) k (l : list DiscoveredClass.t) :
  forallb (scanReturns E k) l = true ->
  methodQueryReturns E k always l = true.
Proof.
  intros H. unfold methodQueryReturns.
  by rewrite filterReturns_always, filter_always, H.
Qed.

Lemma methodQueryReturns_predicate (E : Env) k (p : DiscoveredClass.t -> bool)
    (l : list DiscoveredClass.t) :
  forallb (scanReturns E k) l = true ->
  methodQueryReturns E k (predicate p) l = true.
Proof.
  intros H. unfold methodQueryReturns.
  rewrite filterReturns_predicate. simpl. by apply forallb_filter.
Qed.

(** X8. When the scan returns on every class of the list, selecting the
    classes before the scan is selecting the methods after it:
    [controllerMethodsWithMetaAtKey(k, p)] returns the entries of
    [controllerMethodsWithMetaAtKey(k)] whose parent class satisfies [p], in
    the same order.  Likewise for the providers. *)
Theorem X8_class_filter_selects_by_parent (E : Env) (k : MetaKey)
    (p : DiscoveredClass.t -> bool) (s : DiscoveryService) :
  (forallb (scanReturns E k) (discoveredControllers s) = true ->
   exists all,
     returns (controllerMethodsWithMetaAtKey E k None) s all
     /\ returns (controllerMethodsWithMetaAtKey E k (Some (predicate p))) s
          (filter (fun x => p (parentOf x)) all))
  /\ (forallb (scanReturns E k) (discoveredProviders s) = true ->
      exists all,
        returns (providerMethodsWithMetaAtKey E k None) s all
        /\ returns (providerMethodsWithMetaAtKey E k (Some (predicate p))) s
             (filter (fun x => p (parentOf x)) all)).
Proof.
  split; intros Hscan.
  - exists (c ← discoveredControllers s; spec_classMethods E k c). split.
    + rewrite <- (filter_always (discoveredControllers s)) at 1.
      apply (returns_controllerMethodsWithMetaAtKey E k None).
      by apply methodQueryReturns_always.
    + rewrite filter_parent_bind.
      apply (returns_controllerMethodsWithMetaAtKey E k (Some (predicate p))).
      by apply methodQueryReturns_predicate.
  - exists (c ← discoveredProviders s; spec_classMethods E k c). split.
    + rewrite <- (filter_always (discoveredProviders s)) at 1.
      apply (returns_providerMethodsWithMetaAtKey E k None).
      by apply methodQueryReturns_always.
    + rewrite filter_parent_bind.
      apply (returns_providerMethodsWithMetaAtKey E k (Some (predicate p))).
      by apply methodQueryReturns_predicate.
Qed.

Lemma X8_class_filter_selects_by_parent_witness :
  exists all,
    returns (controllerMethodsWithMetaAtKey Example.strictEnv Example.ROLES
               None) Example.service all
    /\ returns (controllerMethodsWithMetaAtKey Example.strictEnv Example.ROLES
                  (Some (predicate Cases.onlyDogs))) Example.service
         (filter (fun x => Cases.onlyDogs (parentOf x)) all).
Proof.
  destruct (X8_class_filter_selects_by_parent Example.strictEnv Example.ROLES
              Cases.onlyDogs Example.service) as [Hc _].
  apply Hc. reflexivity.
Defined.

(** ** The composite query, further *)

Section CompositeIff.
Variable E : Env.
Implicit Types (s : DiscoveryService) (k : MetaKey) (f : Filter JsValue).

Lemma controllersWithMeta_isOk k f s :
  isOk (controllersWithMeta E k f s).1
  = storeReturns E k (discoveredControllers s)
    && filterReturns f (DiscoveredClassWithMeta.meta
                          <$> spec_classesWithMeta E k (discoveredControllers s)).
Proof.
  unfold controllersWithMeta.
  destruct (storeReturns E k (discoveredControllers s)) eqn:Hstore; simpl.
  - rewrite (isOk_bind_returns _ _ s _
               (returns_controllersWithMetaAtKey E k s Hstore)).
    unfold filterReturns at 1. rewrite forallb_fmap.
    apply (filter_call_isOk (fun x => f (DiscoveredClassWithMeta.meta x))).
  - apply isOk_bind_throws. by rewrite controllersWithMetaAtKey_isOk.
Qed.

Lemma methodsFromDecoratedControllers_isOk
    (sel : list DiscoveredClassWithMeta.t) s :
  isOk (methodsFromDecoratedControllers E sel s).1
  = forallb (scanReturns E (PATH_METADATA E))
      (DiscoveredClassWithMeta.discoveredClass <$> sel).
Proof.
  destruct (forallb _ (_ <$> sel)) eqn:Hscan.
  - by rewrite (returns_methodsFromDecoratedControllers E sel s Hscan).
  - apply isOk_bind_throws.
    rewrite array_map_isOk
      by (intros; apply readOnly_classMethodsWithMetaAtKey).
    rewrite <- Hscan, forallb_fmap. apply forallb_ext_in. intros x _.
    apply classMethodsWithMetaAtKey_isOk.
Qed.

Lemma decoratedMethods_isOk k f s :
  isOk (decoratedMethods E k f s).1
  = forallb (scanReturns E k) (discoveredControllers s)
    && filterReturns f
         (DiscoveredMethodWithMeta.meta
            <$> (c ← discoveredControllers s; spec_classMethods E k c)).
Proof.
  unfold decoratedMethods.
  destruct (forallb (scanReturns E k) (discoveredControllers s)) eqn:Hscan;
    simpl.
  - rewrite (isOk_bind_returns _ _ s _
               (returns_all_controllerMethods E k s Hscan)).
    unfold filterReturns at 1. rewrite forallb_fmap.
    apply (filter_call_isOk (fun x => f (DiscoveredMethodWithMeta.meta x))).
  - apply isOk_bind_throws.
    rewrite controllerMethodsWithMetaAtKey_isOk. unfold methodQueryReturns.
    simpl. by rewrite filterReturns_always, filter_always, Hscan.
Qed.

Lemma returns_composite k (metaFilter : option (Filter JsValue)) s :
  compositeReturns E k (default always metaFilter) (discoveredControllers s)
  = true ->
  returns (methodsAndControllerMethodsWithMetaAtKey E k metaFilter) s
    (spec_methodsAndControllerMethods E k (default always metaFilter)
       (discoveredControllers s)).
Proof.
  unfold compositeReturns.
  intros [[[[H1 H2]%andb_prop H3]%andb_prop H4]%andb_prop H5]%andb_prop.
  unfold methodsAndControllerMethodsWithMetaAtKey.
  eapply returns_bind; [by apply returns_controllersWithMeta|].
  eapply returns_bind; [by apply returns_methodsFromDecoratedControllers|].
  eapply returns_bind; [by apply returns_decoratedMethods|].
  done.
Qed.

Lemma composite_isOk k (metaFilter : option (Filter JsValue)) s :
  isOk (methodsAndControllerMethodsWithMetaAtKey E k metaFilter s).1
  = compositeReturns E k (default always metaFilter) (discoveredControllers s).
Proof.
  destruct (compositeReturns _ _ _ _) eqn:Hall.
  { by rewrite (returns_composite k metaFilter s Hall). }
  unfold methodsAndControllerMethodsWithMetaAtKey.
  unfold compositeReturns in Hall.
  set (f := default always metaFilter) in *.
  pose proof (controllersWithMeta_isOk k f s) as H1.
  destruct (storeReturns E k (discoveredControllers s)
            && filterReturns f (DiscoveredClassWithMeta.meta
                 <$> spec_classesWithMeta E k (discoveredControllers s)))
    eqn:Hstage1; [|by apply isOk_bind_throws].
  apply andb_prop in Hstage1 as [Hstore Hf]. simpl in Hall.
  rewrite (isOk_bind_returns _ _ s _
             (returns_controllersWithMeta E k f s Hstore Hf)).
  pose proof (methodsFromDecoratedControllers_isOk
                (spec_taggedControllers E k f (discoveredControllers s)) s)
    as H2.
  destruct (forallb (scanReturns E (PATH_METADATA E))
              (DiscoveredClassWithMeta.discoveredClass
                 <$> spec_taggedControllers E k f (discoveredControllers s)))
    eqn:Hstage2; [|by apply isOk_bind_throws].
  simpl in Hall.
  rewrite (isOk_bind_returns _ _ s _
             (returns_methodsFromDecoratedControllers E _ s Hstage2)).
  apply isOk_bind_throws. rewrite decoratedMethods_isOk.
  by destruct (forallb (scanReturns E k) (discoveredControllers s)).
Qed.

End CompositeIff.

(** X9. [methodsAndControllerMethodsWithMetaAtKey(k, metaFilter)] returns
    exactly when all of these return: the store at [k] for the type of
    every controller; [metaFilter] on the class value of every controller
    whose value is truthy; the scan at the route-path key of every
    controller so selected; the scan at [k] of every controller; and
    [metaFilter] on the meta of every method found by that scan. *)
Theorem X9_composite_returns_iff_its_calls_do (E : Env) (k : MetaKey)
    (metaFilter : option (Filter JsValue)) (s : DiscoveryService) :
  isOk (methodsAndControllerMethodsWithMetaAtKey E k metaFilter s).1
  = compositeReturns E k (default always metaFilter) (discoveredControllers s).
Proof. apply composite_isOk. Qed.

Section UniqByMore.
Context {A K : Type} `{EqDecision K} (key : A -> K).
Implicit Types (l : list A) (seen : list K).

(** Of two lists put end to end, an element that is kept and whose key
    occurs in the first list is of the first list. *)
Lemma baseUniq_app_first seen l1 l2 y :
  y ∈ baseUniq key seen (l1 ++ l2) -> key y ∈ key <$> l1 -> y ∈ l1.
Proof.
  revert seen. induction l1 as [|x l1 IH]; intros seen Hy Hk.
  - by apply elem_of_nil in Hk.
  - simpl in Hy. rewrite fmap_cons in Hk.
    destruct (decide (key x ∈ seen)) as [Hx|Hx].
    + pose proof (baseUniq_fresh _ _ _ _ Hy) as Hfresh.
      apply elem_of_cons in Hk as [Hk|Hk]; [by rewrite Hk in Hfresh|].
      right. by eapply IH.
    + apply elem_of_cons in Hy as [->|Hy]; [by left|].
      pose proof (baseUniq_fresh _ _ _ _ Hy) as Hfresh.
      apply elem_of_cons in Hk as [Hk|Hk].
      * exfalso. apply Hfresh. rewrite Hk. by left.
      * right. by eapply IH.
Qed.

Lemma uniqBy_app_first l1 l2 y :
  y ∈ uniqBy key (l1 ++ l2) -> key y ∈ key <$> l1 -> y ∈ l1.
Proof. apply baseUniq_app_first. Qed.

(** A list whose keys are distinct is kept whole. *)
Lemma baseUniq_distinct seen l :
  NoDup (key <$> l) -> (forall x, x ∈ l -> key x ∉ seen) ->
  baseUniq key seen l = l.
Proof.
  revert seen. induction l as [|x l IH]; intros seen Hnd Hseen; [done|].
  rewrite fmap_cons in Hnd. apply NoDup_cons in Hnd as [Hx Hnd].
  simpl. destruct (decide (key x ∈ seen)) as [Hin|_].
  - exfalso. by apply (Hseen x); [left|].
  - f_equal. apply IH; [done|]. intros z Hz [Heq|Hin]%elem_of_cons.
    + apply Hx. rewrite <- Heq. by apply list_elem_of_fmap_2.
    + by apply (Hseen z); [right|].
Qed.

Lemma uniqBy_distinct l : NoDup (key <$> l) -> uniqBy key l = l.
Proof.
  intros Hnd. apply baseUniq_distinct; [done|].
  intros x _ Hin. by apply elem_of_nil in Hin.
Qed.

End UniqByMore.

Section CompositeEntries.
Variable E : Env.
Implicit Types (s : DiscoveryService) (k : MetaKey) (f : Filter JsValue).

Lemma inherited_entries k f (cs : list DiscoveredClass.t) x :
  compositeReturns E k f cs = true ->
  x ∈ spec_inheritedMethods E k f cs -> inheritedEntry E k f cs x.
Proof.
  unfold compositeReturns.
  intros [[[_ H3]%andb_prop _]%andb_prop _]%andb_prop.
  rewrite forallb_fmap in H3. apply forallb_Forall in H3.
  rewrite Forall_forall in H3.
  unfold spec_inheritedMethods.
  intros (c & Hx & Hc)%list_elem_of_bind.
  destruct (elem_of_spec_classMethods E _ _ x (H3 c Hc) Hx) as [Hparent Hentry].
  unfold spec_taggedControllers in Hc.
  apply list_elem_of_filter in Hc as [Hp%Is_true_true Hc].
  apply elem_of_spec_classesWithMeta in Hc as (Hin & Hm & Ht).
  unfold inheritedEntry. rewrite Hparent. rewrite Hm in Hp, Ht.
  by split_and!.
Qed.

Lemma direct_entries k f (cs : list DiscoveredClass.t) x :
  compositeReturns E k f cs = true ->
  x ∈ spec_directMethods E k f cs -> directEntry E k f cs x.
Proof.
  unfold compositeReturns.
  intros [[_ H4%forallb_Forall]%andb_prop _]%andb_prop.
  rewrite Forall_forall in H4.
  unfold spec_directMethods.
  intros [Hp%Is_true_true (c & Hx & Hc)%list_elem_of_bind]%list_elem_of_filter.
  destruct (elem_of_spec_classMethods E k c x (H4 c Hc) Hx) as [Hparent Hentry].
  unfold directEntry. rewrite Hparent. by split_and!.
Qed.

Lemma composite_result k (metaFilter : option (Filter JsValue)) s r :
  (methodsAndControllerMethodsWithMetaAtKey E k metaFilter s).1 = Ok r ->
  compositeReturns E k (default always metaFilter) (discoveredControllers s)
  = true
  /\ r = spec_methodsAndControllerMethods E k (default always metaFilter)
           (discoveredControllers s).
Proof.
  intros Hr.
  assert (compositeReturns E k (default always metaFilter)
            (discoveredControllers s) = true) as Hall.
  { rewrite <- composite_isOk. by rewrite Hr. }
  split; [done|].
  exact (Ok_returns _ _ _ _ (returns_composite E k metaFilter s Hall) Hr).
Qed.

End CompositeEntries.

(** X10. Every entry that the composite query returns is of one of two
    kinds.  Either its class is a discovered controller whose value at [k]
    is truthy and passes [metaFilter], and its meta is the truthy value the
    store has at the route-path key for its handler; or its class is a
    discovered controller, its meta is the truthy value the store has at
    [k] for its handler, and that meta passes [metaFilter]. *)
Theorem X10_composite_entries (E : Env) (k : MetaKey)
    (metaFilter : option (Filter JsValue)) (s : DiscoveryService)
    (r : list DiscoveredMethodWithMeta.t) :
  (methodsAndControllerMethodsWithMetaAtKey E k metaFilter s).1 = Ok r ->
  Forall (fun x =>
    inheritedEntry E k (default always metaFilter) (discoveredControllers s) x
    \/ directEntry E k (default always metaFilter) (discoveredControllers s) x)
    r.
Proof.
  intros [Hall ->]%composite_result. apply Forall_forall. intros x Hx.
  unfold spec_methodsAndControllerMethods in Hx.
  apply (sublist_subseteq _ _ (uniqBy_sublist handlerOf _)) in Hx.
  apply elem_of_app in Hx as [Hx|Hx].
  - left. by apply inherited_entries.
  - right. by apply direct_entries.
Qed.

Lemma X10_composite_entries_witness :
  Forall (fun x =>
    inheritedEntry Example.strictEnv Example.ROLES always
      (discoveredControllers Example.service) x
    \/ directEntry Example.strictEnv Example.ROLES always
         (discoveredControllers Example.service) x)
    [ Example.method (JStr "cats") 100 "list" Example.CatsController;
      Example.method (JStr "cats/new") 101 "create" Example.CatsController;
      Example.method (JStr "user") 200 "bark" Example.DogsController ].
Proof.
  apply (X10_composite_entries Example.strictEnv Example.ROLES None
           Example.service).
  reflexivity.
Defined.

(** X11. In the result of the composite query, an entry whose handler is
    the handler of a route-path method of a selected controller is the
    class-inherited entry: its meta is the value at the route-path key, even
    when the handler carries a value at [k] of its own. *)
Theorem X11_inherited_entry_shadows_direct (E : Env) (k : MetaKey)
    (metaFilter : option (Filter JsValue)) (s : DiscoveryService)
    (r : list DiscoveredMethodWithMeta.t) (y : DiscoveredMethodWithMeta.t) :
  (methodsAndControllerMethodsWithMetaAtKey E k metaFilter s).1 = Ok r ->
  y ∈ r ->
  handlerOf y ∈ handlerOf <$>
    spec_inheritedMethods E k (default always metaFilter)
      (discoveredControllers s) ->
  inheritedEntry E k (default always metaFilter) (discoveredControllers s) y
  /\ getMetadata E (PATH_METADATA E) (handlerOf y)
     = Ok (DiscoveredMethodWithMeta.meta y).
Proof.
  intros [Hall ->]%composite_result Hy Hk.
  unfold spec_methodsAndControllerMethods in Hy.
  pose proof (uniqBy_app_first handlerOf _ _ y Hy Hk) as Hin.
  pose proof (inherited_entries E k _ _ y Hall Hin) as Hentry.
  split; [done|]. by destruct Hentry as (_ & _ & _ & _ & Hmeta & _).
Qed.

Lemma X11_inherited_entry_shadows_direct_witness :
  getMetadata Example.strictEnv Example.ROLES (JObj 101) = Ok (JStr "owner")
  /\ getMetadata Example.strictEnv (PATH_METADATA Example.strictEnv)
       (handlerOf (Example.method (JStr "cats/new") 101 "create"
                     Example.CatsController))
     = Ok (JStr "cats/new").
Proof.
  split; [reflexivity|].
  apply (X11_inherited_entry_shadows_direct Example.strictEnv Example.ROLES
           None Example.service
           [ Example.method (JStr "cats") 100 "list" Example.CatsController;
             Example.method (JStr "cats/new") 101 "create"
               Example.CatsController;
             Example.method (JStr "user") 200 "bark" Example.DogsController ]
           (Example.method (JStr "cats/new") 101 "create"
              Example.CatsController)).
  - reflexivity.
  - right. left.
  - vm_compute. right. left.
Defined.

(** X12. When no handler occurs twice among the class-inherited matches
    followed by the directly tagged ones, the composite query drops
    nothing: it returns the one list followed by the other. *)
Theorem X12_composite_keeps_distinct_handlers (E : Env) (k : MetaKey)
    (metaFilter : option (Filter JsValue)) (s : DiscoveryService) :
  let f := default always metaFilter in
  let cs := discoveredControllers s in
  compositeReturns E k f cs = true ->
  NoDup (handlerOf <$> (spec_inheritedMethods E k f cs
                        ++ spec_directMethods E k f cs)) ->
  returns (methodsAndControllerMethodsWithMetaAtKey E k metaFilter) s
    (spec_inheritedMethods E k f cs ++ spec_directMethods E k f cs).
Proof.
  intros f cs Hall Hnd.
  rewrite <- (uniqBy_distinct handlerOf _ Hnd).
  by apply returns_composite.
Qed.

Lemma X12_composite_keeps_distinct_handlers_witness :
  returns (methodsAndControllerMethodsWithMetaAtKey Example.strictEnv
             Example.PATH None) Example.service
    [ Example.method (JStr "cats") 100 "list" Example.CatsController;
      Example.method (JStr "cats/new") 101 "create" Example.CatsController;
      Example.method (JStr "dogs") 200 "bark" Example.DogsController;
      Example.method (JStr "dogs/sleep") 201 "sleep" Example.DogsController;
      Example.method (JStr "ping") 300 "ping" Example.LegacyController ].
Proof.
  apply (X12_composite_keeps_distinct_handlers Example.strictEnv Example.PATH
           None Example.service).
  - reflexivity.
  - vm_compute. apply (bool_decide_unpack _). vm_compute. exact I.
Defined.

(** ** Empty lists *)

(** X13. Over an empty list of controllers the controller queries return
    the empty list and call nothing: they do so even when every
    collaborator and every filter would throw.  Likewise the provider
    queries over an empty list of providers. *)
Theorem X13_empty_list_calls_nothing (E : Env) (k : MetaKey)
    (f : Filter DiscoveredClass.t) (flt : option (Filter DiscoveredClass.t))
    (metaFilter : option (Filter JsValue)) (s : DiscoveryService) :
  (discoveredControllers s = [] ->
   returns (controllers f) s []
   /\ returns (controllersWithMetaAtKey E k) s []
   /\ returns (controllerMethodsWithMetaAtKey E k flt) s []
   /\ returns (methodsAndControllerMethodsWithMetaAtKey E k metaFilter) s [])
  /\ (discoveredProviders s = [] ->
      returns (providers f) s []
      /\ returns (providersWithMetaAtKey E k) s []
      /\ returns (providerMethodsWithMetaAtKey E k flt) s []).
Proof.
  split; intros Hnil.
  - pose proof (returns_controllers f s) as H1.
    pose proof (returns_controllersWithMetaAtKey E k s) as H2.
    pose proof (returns_controllerMethodsWithMetaAtKey E k flt s) as H3.
    pose proof (returns_composite E k metaFilter s) as H4.
    rewrite Hnil in H1, H2, H3, H4. split_and!; auto.
  - pose proof (returns_providers f s) as H1.
    pose proof (returns_providersWithMetaAtKey E k s) as H2.
    pose proof (returns_providerMethodsWithMetaAtKey E k flt s) as H3.
    rewrite Hnil in H1, H2, H3. split_and!; auto.
Qed.

Lemma X13_empty_list_calls_nothing_witness :
  returns (controllers Cases.deadFilter) (construct []) []
  /\ returns (methodsAndControllerMethodsWithMetaAtKey Cases.deadEnv
                Example.ROLES (Some Cases.deadFilter)) (construct []) []
  /\ returns (providerMethodsWithMetaAtKey Cases.deadEnv Example.ROLES
                (Some Cases.deadFilter)) (construct []) [].
Proof.
  destruct (X13_empty_list_calls_nothing Cases.deadEnv Example.ROLES
              Cases.deadFilter (Some Cases.deadFilter)
              (Some Cases.deadFilter) (construct [])) as [Hc Hp].
  destruct (Hc eq_refl) as (H1 & _ & _ & H4).
  destruct (Hp eq_refl) as (_ & _ & H7).
  by split_and!.
Defined.

(** ** The constructor, further *)

Lemma elem_of_construct_field (field : NestModule.t -> JsMap InstanceWrapper.t)
    (mc : ModulesContainer) (c : DiscoveredClass.t) :
  c ∈ (entries mc ≫= fun '(key, nestModule) =>
         toDiscoveredClass nestModule <$> values (field nestModule))
  <-> exists key m name w,
        (key, m) ∈ mc /\ (name, w) ∈ field m /\ c = toDiscoveredClass m w.
Proof.
  unfold entries, values. rewrite list_elem_of_bind. split.
  - intros ([key m] & (w & -> & ([name w'] & -> & Hw)%list_elem_of_fmap)
                        %list_elem_of_fmap & Hm).
    by exists key, m, name, w'.
  - intros (key & m & name & w & Hm & Hw & ->). exists (key, m).
    split; [|done]. apply list_elem_of_fmap_2'
      with (x := w); [|done].
    by apply (list_elem_of_fmap_2' snd _ (name, w)).
Qed.

(** X14. The constructor treats the modules one by one: the lists of a
    container made of two parts are the lists of the first part followed
    by those of the second.  A record is among the discovered controllers
    exactly when it is [toDiscoveredClass] of a module of the container and
    an entry of the routes map of that module, and among the discovered
    providers exactly when it is so for the components map. *)
Theorem X14_constructor_module_by_module (mc1 mc2 : ModulesContainer) :
  discoveredControllers (construct (mc1 ++ mc2))
  = discoveredControllers (construct mc1)
    ++ discoveredControllers (construct mc2)
  /\ discoveredProviders (construct (mc1 ++ mc2))
     = discoveredProviders (construct mc1)
       ++ discoveredProviders (construct mc2)
  /\ (forall c, c ∈ discoveredControllers (construct mc1) <->
        exists key m name w,
          (key, m) ∈ mc1 /\ (name, w) ∈ NestModule.routes m
          /\ c = toDiscoveredClass m w)
  /\ (forall c, c ∈ discoveredProviders (construct mc1) <->
        exists key m name w,
          (key, m) ∈ mc1 /\ (name, w) ∈ NestModule.components m
          /\ c = toDiscoveredClass m w).
Proof.
  split_and!.
  - unfold construct, entries; simpl. apply bind_app.
  - unfold construct, entries; simpl. apply bind_app.
  - intros c. apply (elem_of_construct_field NestModule.routes).
  - intros c. apply (elem_of_construct_field NestModule.components).
Qed.

(** ** What a query reads of the service object *)

Section ReadsOnly.
Context {F : Type} (field : DiscoveryService -> F).

Lemma readsOnly_ret {A} (a : A) : readsOnly field (mret a : M A).
Proof. by intros s1 s2 _. Qed.

Lemma readsOnly_call {A} (r : Res A) : readsOnly field (call r).
Proof. by intros s1 s2 _. Qed.

Lemma readsOnly_this : readsOnly field (this field).
Proof. intros s1 s2 H. unfold this. simpl. by rewrite H. Qed.

Lemma readsOnly_bind {A B} (m : M A) (f : A -> M B) :
  readOnly m -> readsOnly field m -> (forall a, readsOnly field (f a)) ->
  readsOnly field (m ≫= f).
Proof.
  intros Hro Hm Hf s1 s2 H. rewrite !bind_unfold.
  pose proof (Hro s1) as H1. pose proof (Hro s2) as H2.
  pose proof (Hm s1 s2 H) as Heq.
  destruct (m s1) as [[a|e] s1'], (m s2) as [[b|e'] s2'];
    simpl in H1, H2, Heq; subst s1' s2'; simpl.
  - injection Heq as ->. by apply Hf.
  - discriminate.
  - discriminate.
  - by injection Heq as ->.
Qed.

Lemma readsOnly_array_filter {A} (cb : A -> M JsValue) (l : list A) :
  (forall x, readOnly (cb x)) -> (forall x, readsOnly field (cb x)) ->
  readsOnly field (array_filter cb l).
Proof.
  intros Hro Hcb. induction l as [|x l IH]; simpl.
  - apply readsOnly_ret.
  - apply readsOnly_bind; [done|done|]. intros v.
    apply readsOnly_bind; [by apply readOnly_array_filter|done|].
    intros r. apply readsOnly_ret.
Qed.

Lemma readsOnly_array_map {A B} (cb : A -> M B) (l : list A) :
  (forall x, readOnly (cb x)) -> (forall x, readsOnly field (cb x)) ->
  readsOnly field (array_map cb l).
Proof.
  intros Hro Hcb. unfold array_map. induction l as [|x l IH]; simpl.
  - apply readsOnly_ret.
  - apply readsOnly_bind; [done|done|]. intros v.
    apply readsOnly_bind; [by apply (readOnly_array_map cb l)|done|].
    intros r. apply readsOnly_ret.
Qed.

Lemma readsOnly_flatMap {A B} (l : list A) (f : A -> M (list B)) :
  (forall x, readOnly (f x)) -> (forall x, readsOnly field (f x)) ->
  readsOnly field (flatMap l f).
Proof.
  intros Hro Hf.
  apply readsOnly_bind;
    [by apply readOnly_array_map|by apply readsOnly_array_map|].
  intros ls. apply readsOnly_ret.
Qed.

Lemma readsOnly_filter_call {A} (f : Filter A) (l : list A) :
  readsOnly field (array_filter (fun x => call (f x)) l).
Proof.
  apply readsOnly_array_filter; intros x;
    [apply readOnly_call|apply readsOnly_call].
Qed.

Lemma readsOnly_classMethodsWithMetaAtKey (E : Env) c k :
  readsOnly field (classMethodsWithMetaAtKey E c k).
Proof.
  unfold classMethodsWithMetaAtKey.
  apply readsOnly_bind; [apply readOnly_call|apply readsOnly_call|].
  intros p. apply readsOnly_bind.
  - unfold scanFromPrototype, extractMethodMetaAtKey. read_only.
  - unfold scanFromPrototype.
    apply readsOnly_bind; [apply readOnly_call|apply readsOnly_call|].
    intros names. apply readsOnly_array_map; intros n.
    + apply readOnly_extractMethodMetaAtKey.
    + unfold extractMethodMetaAtKey.
      apply readsOnly_bind; [apply readOnly_call|apply readsOnly_call|].
      intros h.
      apply readsOnly_bind; [apply readOnly_call|apply readsOnly_call|].
      intros v. apply readsOnly_ret.
  - intros scanned. apply readsOnly_array_filter; intros x;
      [apply readOnly_ret|apply readsOnly_ret].
Qed.

Lemma readsOnly_pairing (E : Env) k (l : list DiscoveredClass.t) :
  readsOnly field
    (array_map (fun x =>
       meta ← call (getMetadata E k (DiscoveredClass.classType x));
       mret {| DiscoveredClassWithMeta.meta := meta;
               DiscoveredClassWithMeta.discoveredClass := x |}) l).
Proof.
  apply readsOnly_array_map; intros x; [read_only|].
  apply readsOnly_bind; [apply readOnly_call|apply readsOnly_call|].
  intros v. apply readsOnly_ret.
Qed.

End ReadsOnly.

Section Independence.
Variable E : Env.

Lemma readsOnly_controllers f : readsOnly discoveredControllers (controllers f).
Proof.
  apply readsOnly_bind; [apply readOnly_this|apply readsOnly_this|].
  intros l. apply readsOnly_filter_call.
Qed.

Lemma readsOnly_providers f : readsOnly discoveredProviders (providers f).
Proof.
  apply readsOnly_bind; [apply readOnly_this|apply readsOnly_this|].
  intros l. apply readsOnly_filter_call.
Qed.

Lemma readsOnly_controllersWithMetaAtKey k :
  readsOnly discoveredControllers (controllersWithMetaAtKey E k).
Proof.
  apply readsOnly_bind;
    [apply readOnly_controllers|apply readsOnly_controllers|].
  intros l. apply readsOnly_pairing.
Qed.

Lemma readsOnly_providersWithMetaAtKey k :
  readsOnly discoveredProviders (providersWithMetaAtKey E k).
Proof.
  apply readsOnly_bind; [apply readOnly_providers|apply readsOnly_providers|].
  intros l. apply readsOnly_pairing.
Qed.

Lemma readsOnly_controllerMethodsWithMetaAtKey k flt :
  readsOnly discoveredControllers (controllerMethodsWithMetaAtKey E k flt).
Proof.
  apply readsOnly_bind;
    [apply readOnly_controllers|apply readsOnly_controllers|].
  intros l. apply readsOnly_flatMap; intros c;
    [apply readOnly_classMethodsWithMetaAtKey
    |apply readsOnly_classMethodsWithMetaAtKey].
Qed.

Lemma readsOnly_providerMethodsWithMetaAtKey k flt :
  readsOnly discoveredProviders (providerMethodsWithMetaAtKey E k flt).
Proof.
  apply readsOnly_bind; [apply readOnly_providers|apply readsOnly_providers|].
  intros l. apply readsOnly_flatMap; intros c;
    [apply readOnly_classMethodsWithMetaAtKey
    |apply readsOnly_classMethodsWithMetaAtKey].
Qed.

Lemma readsOnly_composite k metaFilter :
  readsOnly discoveredControllers
    (methodsAndControllerMethodsWithMetaAtKey E k metaFilter).
Proof.
  unfold methodsAndControllerMethodsWithMetaAtKey.
  apply readsOnly_bind; [apply readOnly_controllersWithMeta| |].
  { apply readsOnly_bind;
      [apply readOnly_controllersWithMetaAtKey
      |apply readsOnly_controllersWithMetaAtKey|].
    intros l. apply (readsOnly_filter_call _
      (fun x => default always metaFilter (DiscoveredClassWithMeta.meta x))). }
  intros cs.
  apply readsOnly_bind; [apply readOnly_methodsFromDecoratedControllers| |].
  { apply readsOnly_flatMap; intros c;
      [apply readOnly_classMethodsWithMetaAtKey
      |apply readsOnly_classMethodsWithMetaAtKey]. }
  intros inherited.
  apply readsOnly_bind; [apply readOnly_decoratedMethods| |].
  { apply readsOnly_bind;
      [apply readOnly_controllerMethodsWithMetaAtKey
      |apply readsOnly_controllerMethodsWithMetaAtKey|].
    intros l. apply (readsOnly_filter_call _
      (fun x => default always metaFilter (DiscoveredMethodWithMeta.meta x))). }
  intros direct. apply readsOnly_ret.
Qed.

End Independence.

(** X15. The controller queries read the list of controllers and nothing
    else of the service object, the provider queries the list of
    providers: on two service objects with the same controllers the
    controller queries, the composite one included, give the same outcome,
    a result or an exception, whatever the providers are; and the other
    way round.  The scan of one class reads neither list. *)
Theorem X15_queries_read_their_own_list (E : Env) (k : MetaKey)
    (f : Filter DiscoveredClass.t) (flt : option (Filter DiscoveredClass.t))
    (metaFilter : option (Filter JsValue)) (c : DiscoveredClass.t)
    (s1 s2 : DiscoveryService) :
  (discoveredControllers s1 = discoveredControllers s2 ->
   (controllers f s1).1 = (controllers f s2).1
   /\ (controllersWithMetaAtKey E k s1).1 = (controllersWithMetaAtKey E k s2).1
   /\ (controllerMethodsWithMetaAtKey E k flt s1).1
      = (controllerMethodsWithMetaAtKey E k flt s2).1
   /\ (methodsAndControllerMethodsWithMetaAtKey E k metaFilter s1).1
      = (methodsAndControllerMethodsWithMetaAtKey E k metaFilter s2).1)
  /\ (discoveredProviders s1 = discoveredProviders s2 ->
      (providers f s1).1 = (providers f s2).1
      /\ (providersWithMetaAtKey E k s1).1 = (providersWithMetaAtKey E k s2).1
      /\ (providerMethodsWithMetaAtKey E k flt s1).1
         = (providerMethodsWithMetaAtKey E k flt s2).1)
  /\ (classMethodsWithMetaAtKey E c k s1).1
     = (classMethodsWithMetaAtKey E c k s2).1.
Proof.
  split_and!.
  - intros H. split_and!.
    + by apply readsOnly_controllers.
    + by apply readsOnly_controllersWithMetaAtKey.
    + by apply readsOnly_controllerMethodsWithMetaAtKey.
    + by apply readsOnly_composite.
  - intros H. split_and!.
    + by apply readsOnly_providers.
    + by apply readsOnly_providersWithMetaAtKey.
    + by apply readsOnly_providerMethodsWithMetaAtKey.
  - by apply (readsOnly_classMethodsWithMetaAtKey (fun _ => tt)).
Qed.

Lemma X15_queries_read_their_own_list_witness :
  (methodsAndControllerMethodsWithMetaAtKey Example.strictEnv Example.ROLES
     None Example.service).1
  = (methodsAndControllerMethodsWithMetaAtKey Example.strictEnv Example.ROLES
       None Example.controllersOnly).1.
Proof.
  destruct (X15_queries_read_their_own_list Example.strictEnv Example.ROLES
              always None None Example.CatsController
              Example.service Example.controllersOnly) as (Hc & _ & _).
  destruct (Hc eq_refl) as (_ & _ & _ & H). exact H.
Defined.

(** * The class-level queries and the value read from the store *)

Lemma controllersWithMetaAtKey_Ok (E : Env) k s r :
  (controllersWithMetaAtKey E k s).1 = Ok r ->
  r = spec_classesWithMeta E k (discoveredControllers s).
Proof.
  intros Hr.
  assert (storeReturns E k (discoveredControllers s) = true) as Hstore.
  { rewrite <- controllersWithMetaAtKey_isOk. by rewrite Hr. }
  exact (Ok_returns _ _ _ _ (returns_controllersWithMetaAtKey E k s Hstore) Hr).
Qed.

Lemma providersWithMetaAtKey_Ok (E : Env) k s r :
  (providersWithMetaAtKey E k s).1 = Ok r ->
  r = spec_classesWithMeta E k (discoveredProviders s).
Proof.
  intros Hr.
  assert (storeReturns E k (discoveredProviders s) = true) as Hstore.
  { rewrite <- providersWithMetaAtKey_isOk. by rewrite Hr. }
  exact (Ok_returns _ _ _ _ (returns_providersWithMetaAtKey E k s Hstore) Hr).
Qed.

Lemma falsy_not_in_spec_classesWithMeta (E : Env) k c v l :
  getMetadata E k (DiscoveredClass.classType c) = Ok v ->
  ToBoolean v = false ->
  c ∉ DiscoveredClassWithMeta.discoveredClass <$> spec_classesWithMeta E k l.
Proof.
  intros Hget Hv
    (x & -> & (_ & Hm & Ht)%elem_of_spec_classesWithMeta)%list_elem_of_fmap.
  rewrite Hm in Ht. unfold classMeta, metaAt in Ht. rewrite Hget in Ht.
  simpl in Ht. congruence.
Qed.

(** C5, as the code has it.  [controllersWithMetaAtKey(k)] returns when the
    store answers for the type of every discovered controller, and what it
    returns, whenever it returns, is this: the controllers whose value read
    at [k] from their type is truthy, in order, each paired with that value.
    [providersWithMetaAtKey(k)] is the same over the providers, and neither
    query needs anything of the other list.  No entry has a class without
    metadata at [k], and none has [undefined] as its meta. *)
Theorem C5_classes_with_truthy_meta (E : Env) (k : MetaKey)
    (s : DiscoveryService) :
  (storeReturns E k (discoveredControllers s) = true ->
   returns (controllersWithMetaAtKey E k) s
           (spec_classesWithMeta E k (discoveredControllers s)))
  /\ (storeReturns E k (discoveredProviders s) = true ->
      returns (providersWithMetaAtKey E k) s
              (spec_classesWithMeta E k (discoveredProviders s)))
  /\ (forall r, (controllersWithMetaAtKey E k s).1 = Ok r ->
        r = spec_classesWithMeta E k (discoveredControllers s))
  /\ (forall r, (providersWithMetaAtKey E k s).1 = Ok r ->
        r = spec_classesWithMeta E k (discoveredProviders s))
  /\ forall l x, x ∈ spec_classesWithMeta E k l ->
       let c := DiscoveredClassWithMeta.discoveredClass x in
       c ∈ l
       /\ getMetadata E k (DiscoveredClass.classType c)
          = Ok (DiscoveredClassWithMeta.meta x)
       /\ ToBoolean (DiscoveredClassWithMeta.meta x) = true
       /\ DiscoveredClassWithMeta.meta x ≠ JUndefined.
Proof.
  split_and!.
  - apply returns_controllersWithMetaAtKey.
  - apply returns_providersWithMetaAtKey.
  - intros r. apply controllersWithMetaAtKey_Ok.
  - intros r. apply providersWithMetaAtKey_Ok.
  - intros l x (Hin & Hm & Ht)%elem_of_spec_classesWithMeta. simpl.
    rewrite Hm in Ht |- *. unfold classMeta in *.
    destruct (truthy_metaAt _ _ _ Ht) as [Hget Hne]. by split_and!.
Qed.

Lemma C5_classes_with_truthy_meta_witness :
  returns (controllersWithMetaAtKey Example.strictEnv Example.ROLES)
          Example.service
          [ DiscoveredClassWithMeta.mk (JStr "admin") Example.CatsController ]
  /\ returns (providersWithMetaAtKey Cases.mailEnv Example.ROLES)
             Cases.mailOnly
             [ DiscoveredClassWithMeta.mk (JStr "mailer") Cases.MailService ].
Proof.
  destruct (C5_classes_with_truthy_meta Example.strictEnv Example.ROLES
              Example.service) as (Hc & _).
  destruct (C5_classes_with_truthy_meta Cases.mailEnv Example.ROLES
              Cases.mailOnly) as (_ & Hp & _).
  split; [exact (Hc eq_refl) | exact (Hp eq_refl)].
Defined.

(** C5, as it is worded, fails where a class has a falsy value stored at
    the key.  The legacy controller has [0] at [ROLES]: the store reports
    metadata there, the filter of the specification keeps the class, and
    both queries leave it out. *)
Lemma C5_counterexample :
  getMetadata Example.strictEnv Example.ROLES
    (DiscoveredClass.classType Example.LegacyController) = Ok (JNum 0)
  /\ reportsMetadata Example.strictEnv Example.ROLES
       (DiscoveredClass.classType Example.LegacyController) = true
  /\ spec_classesWithAnyMeta Example.strictEnv Example.ROLES
       (discoveredControllers Example.legacyOnly)
     = [ DiscoveredClassWithMeta.mk (JNum 0) Example.LegacyController ]
  /\ controllersWithMetaAtKey Example.strictEnv Example.ROLES Example.legacyOnly
     = (Ok [], Example.legacyOnly)
  /\ providersWithMetaAtKey Example.strictEnv Example.ROLES Example.legacyOnly
     = (Ok [], Example.legacyOnly)
  /\ ~ returns (controllersWithMetaAtKey Example.strictEnv Example.ROLES)
         Example.legacyOnly
         (spec_classesWithAnyMeta Example.strictEnv Example.ROLES
            (discoveredControllers Example.legacyOnly)).
Proof. split_and!; try reflexivity. unfold returns. by vm_compute. Qed.

(** C10. A class whose type has a falsy value stored at [k] is in neither
    [controllersWithMetaAtKey(k)] nor [providersWithMetaAtKey(k)], whatever
    these return: the selection tests the truthiness of the value read.
    Each query returns when the store answers on its own list. *)
Theorem C10_falsy_meta_is_excluded (E : Env) (k : MetaKey)
    (s : DiscoveryService) (c : DiscoveredClass.t) (v : JsValue) :
  getMetadata E k (DiscoveredClass.classType c) = Ok v ->
  ToBoolean v = false ->
  (forall r, (controllersWithMetaAtKey E k s).1 = Ok r ->
     c ∉ DiscoveredClassWithMeta.discoveredClass <$> r)
  /\ (forall r, (providersWithMetaAtKey E k s).1 = Ok r ->
     c ∉ DiscoveredClassWithMeta.discoveredClass <$> r)
  /\ (storeReturns E k (discoveredControllers s) = true ->
      exists r, returns (controllersWithMetaAtKey E k) s r
                /\ (c ∉ DiscoveredClassWithMeta.discoveredClass <$> r))
  /\ (storeReturns E k (discoveredProviders s) = true ->
      exists r, returns (providersWithMetaAtKey E k) s r
                /\ (c ∉ DiscoveredClassWithMeta.discoveredClass <$> r)).
Proof.
  intros Hget Hv. split_and!.
  - intros r ->%controllersWithMetaAtKey_Ok.
    by eapply falsy_not_in_spec_classesWithMeta.
  - intros r ->%providersWithMetaAtKey_Ok.
    by eapply falsy_not_in_spec_classesWithMeta.
  - intros Hstore. eexists. split.
    + by apply returns_controllersWithMetaAtKey.
    + by eapply falsy_not_in_spec_classesWithMeta.
  - intros Hstore. eexists. split.
    + by apply returns_providersWithMetaAtKey.
    + by eapply falsy_not_in_spec_classesWithMeta.
Qed.

Lemma C10_falsy_meta_is_excluded_witness :
  Example.LegacyController ∈ discoveredControllers Example.service
  /\ (exists r,
        returns (controllersWithMetaAtKey Example.strictEnv Example.ROLES)
                Example.service r
        /\ (Example.LegacyController
              ∉ DiscoveredClassWithMeta.discoveredClass <$> r))
  /\ (exists r,
        returns (providersWithMetaAtKey Example.strictEnv Example.ROLES)
                Example.legacyOnly r
        /\ (Example.LegacyController
              ∉ DiscoveredClassWithMeta.discoveredClass <$> r)).
Proof.
  destruct (C10_falsy_meta_is_excluded Example.strictEnv Example.ROLES
              Example.service Example.LegacyController (JNum 0)
              eq_refl eq_refl) as (_ & _ & Hc & _).
  destruct (C10_falsy_meta_is_excluded Example.strictEnv Example.ROLES
              Example.legacyOnly Example.LegacyController (JNum 0)
              eq_refl eq_refl) as (_ & _ & _ & Hp).
  split_and!; [by right; right; left | exact (Hc eq_refl) | exact (Hp eq_refl)].
Defined.

(** * A component without a class *)

(** With a store that refuses an absent target, a class-level query over a
    list that holds a record without a class type throws. *)
Lemma absent_class_type_throws (E : Env) (k : MetaKey) (s : DiscoveryService)
    (c : DiscoveredClass.t) :
  refusesAbsentTargets E ->
  absent (DiscoveredClass.classType c) = true ->
  withMetaAtKey E k c = Throw TypeError
  /\ (c ∈ discoveredProviders s ->
      exists e, providersWithMetaAtKey E k s = (Throw e, s))
  /\ (c ∈ discoveredControllers s ->
      exists e, controllersWithMetaAtKey E k s = (Throw e, s)).
Proof.
  intros Hstore Habsent.
  pose proof (Hstore k _ Habsent) as Hget. split_and!; [exact Hget| |].
  - intros Hin.
    destruct (array_filter_throws
                (fun x => call (withMetaAtKey E k x))
                (discoveredProviders s) s c TypeError) as [e' He'];
      [intros; apply readOnly_call|done|unfold call; by rewrite <- Hget|].
    exists e'. apply bind_Throw.
    unfold providers. by rewrite bind_unfold.
  - intros Hin.
    destruct (array_filter_throws
                (fun x => call (withMetaAtKey E k x))
                (discoveredControllers s) s c TypeError) as [e' He'];
      [intros; apply readOnly_call|done|unfold call; by rewrite <- Hget|].
    exists e'. apply bind_Throw.
    unfold controllers. by rewrite bind_unfold.
Qed.

Lemma tableEnv_refusesAbsentTargets (t : Tables) :
  refusesAbsentTargets (tableEnv t).
Proof. by intros k [] H. Qed.

(** C8, on the code.  The mail module registers a service whose class has
    metadata at [ROLES] and a value provider, which has no class.  The
    constructor makes a record of each and the class type of the second is
    absent.  On that record the filter [withMetaAtKey] throws a [TypeError],
    and so does [providersWithMetaAtKey(ROLES)] over the application: the
    record is not left out, and the mail service is not returned.  Without
    the value provider the same query returns the mail service. *)
Theorem C8_value_provider_makes_the_query_throw :
  discoveredProviders Cases.mailApp = [ Cases.MailService; Cases.MailConfig ]
  /\ absent (DiscoveredClass.classType Cases.MailConfig) = true
  /\ withMetaAtKey Cases.mailEnv Example.ROLES Cases.MailConfig
     = Throw TypeError
  /\ providers (withMetaAtKey Cases.mailEnv Example.ROLES) Cases.mailApp
     = (Throw TypeError, Cases.mailApp)
  /\ providersWithMetaAtKey Cases.mailEnv Example.ROLES Cases.mailApp
     = (Throw TypeError, Cases.mailApp)
  /\ providersWithMetaAtKey Cases.mailEnv Example.ROLES Cases.mailOnly
     = (Ok [ DiscoveredClassWithMeta.mk (JStr "mailer") Cases.MailService ],
        Cases.mailOnly)
  /\ providerMethodsWithMetaAtKey Cases.mailEnv Example.ROLES None Cases.mailApp
     = (Ok [ Example.method (JStr "sender") 800 "send" Cases.MailService ],
        Cases.mailApp).
Proof. by split_and!. Qed.

(** * The composite query and the controllers that carry metadata *)

(** C1, as it is worded, fails where a controller has a falsy value stored
    at the key.  The legacy controller has [0] at [ROLES] and a route
    handler [ping]: every call of the query returns, the composition of the
    specification takes the controller as one that carries metadata and
    gives [ping], and the query returns nothing. *)
Lemma C1_counterexample :
  compositeReturns Example.strictEnv Example.ROLES always
    (discoveredControllers Example.legacyOnly) = true
  /\ reportsMetadata Example.strictEnv Example.ROLES
       (DiscoveredClass.classType Example.LegacyController) = true
  /\ spec_claimedComposite Example.strictEnv Example.ROLES always
       (discoveredControllers Example.legacyOnly)
     = [ Example.method (JStr "ping") 300 "ping" Example.LegacyController ]
  /\ methodsAndControllerMethodsWithMetaAtKey Example.strictEnv Example.ROLES
       None Example.legacyOnly
     = (Ok [], Example.legacyOnly)
  /\ ~ returns (methodsAndControllerMethodsWithMetaAtKey Example.strictEnv
                  Example.ROLES None) Example.legacyOnly
         (spec_claimedComposite Example.strictEnv Example.ROLES always
            (discoveredControllers Example.legacyOnly)).
Proof. split_and!; try reflexivity. unfold returns. by vm_compute. Qed.
